(** * Territory scoring engine of generate_territory_map.py

    Shallow embedding of the scoring and stratification pipeline of
    [src/generate_territory_map.py]: field normalisation and epidemiology
    ([enrich_hospital]), infrastructure scoring
    ([calculate_infrastructure_scores]), tiering ([assign_clinical_tiers]),
    travel ([haversine], [calculate_travel]) and access classification
    ([assign_geographic_access]).

    Modelling conventions:
    - a hospital record is a Python dict from column names to cell values,
      modelled as a [gmap string pyval]; every stage updates the dicts it
      receives (in place in the source; here it returns the updated dicts
      in the same list order, each dict being a distinct object coming from
      one spreadsheet row);
    - Python ints are [Z]; a finite Python float is a real number [R],
      and [inf], [-inf] and [nan] are values of their own ([VInf], [VNaN]),
      which [float] of a str can produce and which [int], [math.sin] and
      [round] raise on;
    - arithmetic on finite floats is exact: the decimal constants 2.5,
      0.17, 0.21, 1.3 ... are their exact decimal values, and neither the
      rounding of a binary64 result to 53 bits nor an overflow beyond the
      binary64 range is modelled; so where the code's float result lies
      within one rounding step of a tie of [round] the two can differ
      (e.g. [round(45 * 0.7)] is 31 in the code, the float product being
      31.499999999999996, and 32 here);
    - Python's [round] is round-half-to-even on the exact value;
    - a [str] is the list of bytes of its UTF-8 encoding;
    - exceptions are the [Err] branch of a small result monad;
    - [str] of a float and [float] of a string are builtins with no source
      here; they are section variables ([float_repr], [float_of_str]). *)

From Stdlib Require Import ZArith Reals Lra Lia String Ascii List Permutation Sorted.
From stdpp Require Import base gmap strings list pretty.

Open Scope string_scope.

(* ------------------------------------------------------------------ *)
(** ** Python values, dicts and exceptions *)

(** A Python value: [VFloat r] is a finite float, [VInf neg] is
    [float("inf")] ([neg = false]) or [float("-inf")] ([neg = true]),
    [VNaN] is [float("nan")]. *)
Inductive pyval :=
| VNone
| VBool (b : bool)
| VInt (z : Z)
| VFloat (r : R)
| VInf (neg : bool)
| VNaN
| VStr (s : string).

Abbreviation pydict := (gmap string pyval).

(** A Python float, as [float(..)] returns it. *)
Inductive pyfloat :=
| FFin (r : R)
| FInf (neg : bool)
| FNaN.

Definition of_pyfloat (f : pyfloat) : pyval :=
  match f with
  | FFin r => VFloat r
  | FInf neg => VInf neg
  | FNaN => VNaN
  end.

Inductive pyexc :=
  KeyError | TypeError | ValueError | ZeroDivisionError | OverflowError.

Inductive result (A : Type) :=
| Ok (a : A)
| Err (e : pyexc).
Arguments Ok {A} a.
Arguments Err {A} e.

Definition rbind {A B} (m : result A) (f : A -> result B) : result B :=
  match m with Ok a => f a | Err e => Err e end.

Notation "'let?' x ':=' m 'in' f" := (rbind m (fun x => f))
  (at level 200, x name, m at level 100, f at level 200).

(** [for x in xs: f(x)] collecting results, stopping at the first raise. *)
Fixpoint rmap {A B} (f : A -> result B) (xs : list A) : result (list B) :=
  match xs with
  | [] => Ok []
  | x :: xs' => let? y := f x in let? ys := rmap f xs' in Ok (y :: ys)
  end.

(** [h.get(k, d)] *)
Definition get_d (h : pydict) (k : string) (d : pyval) : pyval :=
  match h !! k with Some v => v | None => d end.

(** [h.get(k)] *)
Definition get (h : pydict) (k : string) : pyval := get_d h k VNone.

(** [h[k]] *)
Definition subscript (h : pydict) (k : string) : result pyval :=
  match h !! k with Some v => Ok v | None => Err KeyError end.

(* ------------------------------------------------------------------ *)
(** ** Real-number helpers: Python's [round], [int()] and comparisons *)

Open Scope R_scope.

Definition rltb (x y : R) : bool := if Rlt_dec x y then true else false.
Definition reqb (x y : R) : bool := if Req_dec_T x y then true else false.

(** [round(x)]: nearest integer, ties to even. *)
Definition py_round (x : R) : Z :=
  let f := Int_part x in
  let d := x - IZR f in
  if rltb d (1/2) then f
  else if rltb (1/2) d then (f + 1)%Z
  else if Z.even f then f else (f + 1)%Z.

(** [round(x, 1)] *)
Definition py_round1 (x : R) : R := IZR (py_round (x * 10)) / 10.

(** [int(x)] on a float: truncation towards zero. *)
Definition py_trunc (x : R) : Z :=
  if Rle_dec 0 x then Int_part x else (- Int_part (- x))%Z.

(** [x / y] on numbers: true division, raising on a zero divisor. *)
Definition py_div (x y : R) : result R :=
  if reqb y 0 then Err ZeroDivisionError else Ok (x / y).

Close Scope R_scope.

(** Integer version of [round(a / b)] for [b > 0], used to compute. *)
Definition round_div (a b : Z) : Z :=
  let f := (a / b)%Z in
  let r := (a mod b)%Z in
  match Z.compare (2 * r) b with
  | Lt => f
  | Gt => f + 1
  | Eq => if Z.even f then f else f + 1
  end.

(* ------------------------------------------------------------------ *)
(** ** String helpers on UTF-8 bytes: [str.strip], [str.lower] *)

(** The characters for which [str.isspace] holds: \t \n \v \f \r,
    \x1c-\x1f and space (one byte each in UTF-8), U+0085 and U+00A0
    (two bytes: C2 85, C2 A0), U+1680, U+2000-U+200A, U+2028, U+2029,
    U+202F, U+205F and U+3000 (three bytes: E1 9A 80, E2 80 80-8A,
    E2 80 A8, E2 80 A9, E2 80 AF, E2 81 9F, E3 80 80). *)
Definition is_space (c : ascii) : bool :=
  let n := nat_of_ascii c in
  (Nat.leb 9 n && Nat.leb n 13) || (Nat.leb 28 n && Nat.leb n 32).

Definition is_space2 (c1 c2 : ascii) : bool :=
  Nat.eqb (nat_of_ascii c1) 194 &&
  (Nat.eqb (nat_of_ascii c2) 133 || Nat.eqb (nat_of_ascii c2) 160).

Definition is_space3 (c1 c2 c3 : ascii) : bool :=
  let n1 := nat_of_ascii c1 in
  let n2 := nat_of_ascii c2 in
  let n3 := nat_of_ascii c3 in
  (Nat.eqb n1 225 && Nat.eqb n2 154 && Nat.eqb n3 128) ||
  (Nat.eqb n1 226 && Nat.eqb n2 128 &&
     ((Nat.leb 128 n3 && Nat.leb n3 138) || Nat.eqb n3 168 ||
      Nat.eqb n3 169 || Nat.eqb n3 175)) ||
  (Nat.eqb n1 226 && Nat.eqb n2 129 && Nat.eqb n3 159) ||
  (Nat.eqb n1 227 && Nat.eqb n2 128 && Nat.eqb n3 128).

(** [s.lstrip()]: drops whitespace characters from the front. *)
Fixpoint lstrip (s : string) : string :=
  match s with
  | EmptyString => EmptyString
  | String c s1 =>
      if is_space c then lstrip s1 else
      match s1 with
      | EmptyString => s
      | String c1 s2 =>
          if is_space2 c c1 then lstrip s2 else
          match s2 with
          | EmptyString => s
          | String c2 s3 => if is_space3 c c1 c2 then lstrip s3 else s
          end
      end
  end.

Fixpoint srev (s : string) : string :=
  match s with
  | EmptyString => EmptyString
  | String c s' => srev s' ++ String c EmptyString
  end.

(** [lstrip] on the reversed bytes: a character's bytes come last first. *)
Fixpoint lstrip_rev (s : string) : string :=
  match s with
  | EmptyString => EmptyString
  | String c s1 =>
      if is_space c then lstrip_rev s1 else
      match s1 with
      | EmptyString => s
      | String c1 s2 =>
          if is_space2 c1 c then lstrip_rev s2 else
          match s2 with
          | EmptyString => s
          | String c2 s3 => if is_space3 c2 c1 c then lstrip_rev s3 else s
          end
      end
  end.

(** [s.rstrip()]: drops whitespace characters from the end; in UTF-8 the
    last character is the one of the last lead byte, so a whitespace
    encoding at the end of the bytes is a whitespace character. *)
Definition rstrip (s : string) : string := srev (lstrip_rev (srev s)).

(** [s.strip()] *)
Definition strip (s : string) : string := rstrip (lstrip s).

Definition lower_char (c : ascii) : ascii :=
  let n := nat_of_ascii c in
  if Nat.leb 65 n && Nat.leb n 90 then ascii_of_nat (n + 32) else c.

(** [s.lower()] on ASCII letters; other bytes are kept. Python also
    lowers non-ASCII letters, and the lower case of a non-ASCII character
    contains a non-ASCII character except for the Kelvin sign (to "k"), so
    [lower s] is one of the words "true", "yes", "1", "y" of [safe_bool]
    exactly when Python's [s.lower()] is. *)
Fixpoint lower (s : string) : string :=
  match s with
  | EmptyString => EmptyString
  | String c s' => String (lower_char c) (lower s')
  end.

(** [s in (a, b, ...)] for strings. *)
Definition str_in (s : string) (xs : list string) : bool :=
  existsb (String.eqb s) xs.

Section Pipeline.

(** [str(x)] for a float (Python's shortest round-trip repr). *)
Variable float_repr : R -> string.
(** [float(s)] for a str: [Some x] when it parses (to a finite float, an
    infinity for "inf" or "1e999", nan for "nan"), [None] where it raises
    [ValueError]. *)
Variable float_of_str : string -> option pyfloat.

(** [str(v)] *)
Definition py_str (v : pyval) : string :=
  match v with
  | VNone => "None"
  | VBool true => "True"
  | VBool false => "False"
  | VInt z => pretty z
  | VFloat r => float_repr r
  | VInf false => "inf"
  | VInf true => "-inf"
  | VNaN => "nan"
  | VStr s => s
  end.

(** [bool(v)] *)
Definition py_truthy (v : pyval) : bool :=
  match v with
  | VNone => false
  | VBool b => b
  | VInt z => negb (Z.eqb z 0)
  | VFloat r => negb (reqb r 0)
  | VInf _ | VNaN => true
  | VStr s => negb (String.eqb s "")
  end.

(** [float(v)]; [None] where it raises [ValueError] or [TypeError]
    (caught by the callers). *)
Definition py_float (v : pyval) : option pyfloat :=
  match v with
  | VNone => None
  | VBool b => Some (FFin (if b then 1%R else 0%R))
  | VInt z => Some (FFin (IZR z))
  | VFloat r => Some (FFin r)
  | VInf neg => Some (FInf neg)
  | VNaN => Some FNaN
  | VStr s => float_of_str s
  end.

(** [int(x)] on a float: truncation towards zero; [int] of an infinity
    raises [OverflowError], of nan [ValueError]. *)
Definition py_int (f : pyfloat) : result Z :=
  match f with
  | FFin r => Ok (py_trunc r)
  | FInf _ => Err OverflowError
  | FNaN => Err ValueError
  end.

(* ------------------------------------------------------------------ *)
(** ** Helpers: [safe_float], [safe_int], [safe_bool] *)

(** [safe_float(val, default)]; it never raises. *)
Definition safe_float (val : pyval) (default : R) : pyfloat :=
  match val with
  | VNone => FFin default
  | _ => match py_float val with Some f => f | None => FFin default end
  end.

(** [safe_int(val, default)], with its exceptions: [default] where
    [float(val)] or [int(..)] raises [ValueError] or [TypeError] (a str that
    does not parse, nan, ...); the [OverflowError] of [int] on an infinity
    is not caught. *)
Definition safe_int_res (val : pyval) (default : Z) : result Z :=
  match val with
  | VNone => Ok default
  | _ => match py_float val with
         | None => Ok default
         | Some f => match py_int f with
                     | Err ValueError | Err TypeError => Ok default
                     | r => r
                     end
         end
  end.

(** The int [safe_int(val, default)] returns, when it does not raise. *)
Definition safe_int (val : pyval) (default : Z) : Z :=
  match safe_int_res val default with Ok z => z | Err _ => default end.

Definition safe_bool (val : pyval) (default : bool) : bool :=
  match val with
  | VNone => default
  | VBool b => b
  | VStr s => str_in (lower s) ["true"; "yes"; "1"; "y"]
  | _ => py_truthy val
  end.

(* ------------------------------------------------------------------ *)
(** ** Constants *)

Definition CERT_COLORS : list (string * string) :=
  [("CSC", "#EB1700"); ("PSC", "#F59E0B"); ("TSC", "#0077C8");
   ("TCC", "#0077C8"); ("None", "#6B7280"); ("", "#6B7280")].

Definition CERT_LABELS : list (string * string) :=
  [("CSC", "Comprehensive Stroke Center"); ("PSC", "Primary Stroke Center");
   ("TSC", "Thrombectomy-Capable Stroke Center");
   ("TCC", "Thrombectomy-Capable Center");
   ("None", "No Certification"); ("", "No Certification")].

(** [d.get(k, default)] on a dict literal with string keys. *)
Fixpoint assoc_get {A} (d : list (string * A)) (k : string) (default : A) : A :=
  match d with
  | [] => default
  | (k', v) :: d' => if String.eqb k k' then v else assoc_get d' k default
  end.

(** [k in d] on a dict literal with string keys. *)
Definition assoc_mem {A} (d : list (string * A)) (k : string) : bool :=
  existsb (fun kv => String.eqb k kv.1) d.

(** [EPIRATES], the rates as exact decimals. *)
Definition ischemic_per_100k : Z := 216.
Definition lvo_pct_of_ischemic : R := (21 / 100)%R.
Definition mt_eligibility_pct : R := (70 / 100)%R.
Definition avm_aneurysm_per_100k : Z := 12.
Definition hemorrhagic_per_100k : Z := 12.
Definition hemorrhagic_sah_pct : R := (5 / 100)%R.
Definition hemorrhagic_ich_pct : R := (80 / 100)%R.
Definition hemorrhagic_other_pct : R := (15 / 100)%R.
Definition age_65_multiplier : R := (5 / 2)%R.
Definition default_65_plus_pct : R := (17 / 100)%R.

(** [INFRA_WEIGHTS] *)
Definition W_cert_csc : Z := 25.
Definition W_cert_psc : Z := 20.
Definition W_cert_tsc : Z := 15.
Definition W_cert_none : Z := 5.
Definition W_thrombectomy_24_7 : Z := 15.
Definition W_neuro_icu : Z := 12.
Definition W_cah : Z := 10.
Definition W_ct_scanner : Z := 8.
Definition W_telestroke : Z := 8.
Definition W_tpa : Z := 5.
Definition W_nsg_fellowship : Z := 7.
Definition W_nir_fellowship : Z := 8.
Definition W_stroke_volume_max : Z := 10.

(* ------------------------------------------------------------------ *)
(** ** Data enrichment: [enrich_hospital] *)

(** The stroke-epidemiology block, [effective_pop > 0] branch. The
    products and quotients are exact (see the conventions above): near a
    tie of [round] the code's binary64 result can round the other way, as
    [round(45 * 0.7)], which is 31 in the code and 32 here. *)
Definition stroke_volumes (ep : Z) (h : pydict) : pydict :=
  let ischemic := py_round (IZR (ep * ischemic_per_100k) / 100000) in
  let h := <["ischemic_volume" := VInt ischemic]> h in
  let lvo := py_round (IZR ischemic * lvo_pct_of_ischemic) in
  let h := <["lvo_volume" := VInt lvo]> h in
  let h := <["mt_eligible" := VInt (py_round (IZR lvo * mt_eligibility_pct))]> h in
  let h := <["avm_aneurysm_volume" :=
               VInt (py_round (IZR (ep * avm_aneurysm_per_100k) / 100000))]> h in
  let hem := py_round (IZR (ep * hemorrhagic_per_100k) / 100000) in
  let h := <["hemorrhagic_volume" := VInt hem]> h in
  let h := <["sah_volume" := VInt (py_round (IZR hem * hemorrhagic_sah_pct))]> h in
  let h := <["ich_volume" := VInt (py_round (IZR hem * hemorrhagic_ich_pct))]> h in
  let h := <["hemorrhagic_other" :=
               VInt (py_round (IZR hem * hemorrhagic_other_pct))]> h in
  <["total_stroke_volume" := VInt (ischemic + hem)]> h.

Definition volume_keys : list string :=
  ["ischemic_volume"; "lvo_volume"; "mt_eligible"; "avm_aneurysm_volume";
   "hemorrhagic_volume"; "sah_volume"; "ich_volume"; "hemorrhagic_other";
   "total_stroke_volume"].

(** The [else] branch: [for k in [...]: h[k] = 0]. *)
Definition zero_volumes (h : pydict) : pydict :=
  fold_left (fun h k => <[k := VInt 0]> h) volume_keys h.

(** [h[k] = f(h)]: one assignment of [enrich_hospital], its right-hand
    side reading the dict as it is at that point. *)
Definition assign (k : string) (f : pydict -> pyval) (h : pydict) : pydict :=
  <[k := f h]> h.

(** [if h["cert"] not in CERT_COLORS: h["cert"] = "None"] *)
Definition cert_default (h : pydict) : pydict :=
  if assoc_mem CERT_COLORS (py_str (get h "cert")) then h
  else <["cert" := VStr "None"]> h.

(** The demographics block, from [pop_total = ...] to [h["effective_pop"]];
    [pop_total], [pop_65] are locals; [h["pop_under_65"]] is read back as
    the value just stored. [pop_65 / pop_total * 100] is exact here; the
    code's binary64 quotient can fall on the other side of a tie of
    [round(.., 1)]: for 23 of 80 the code gives 28.7 (the float is
    28.749999999999996) and this model 28.8. *)
Definition demographics (h : pydict) : pydict :=
  let pop_total := safe_int (get h "Catchment Population") 0 in
  let pop_65 := safe_int (get h "Population 65+") 0 in
  let pop_65 := if (0 <? pop_total)%Z && (pop_65 =? 0)%Z
                then py_trunc (IZR pop_total * default_65_plus_pct)
                else pop_65 in
  let pop_under_65 := Z.max 0 (pop_total - pop_65) in
  let pop_65_pct := if (0 <? pop_total)%Z
                    then VFloat (py_round1 (IZR pop_65 / IZR pop_total * 100))
                    else VInt 0 in
  let effective_pop :=
    if (0 <? pop_total)%Z
    then py_round (IZR pop_under_65 + IZR pop_65 * age_65_multiplier)
    else 0%Z in
  <["effective_pop" := VInt effective_pop]>
  (<["pop_65_pct" := pop_65_pct]>
  (<["pop_under_65" := VInt pop_under_65]>
  (<["pop_65_plus" := VInt pop_65]>
  (<["pop_total" := VInt pop_total]> h)))).

(** [h["effective_pop"]]; the demographics block always stores an int. *)
Definition effective_pop_of (h : pydict) : Z :=
  match h !! "effective_pop" with Some (VInt ep) => ep | _ => 0%Z end.

(** [if h["effective_pop"] > 0: ... else: ...] *)
Definition stroke_epidemiology (h : pydict) : pydict :=
  if (0 <? effective_pop_of h)%Z then stroke_volumes (effective_pop_of h) h
  else zero_volumes h.

(** The statements of [enrich_hospital], in source order. *)
Definition enrich_steps : list (pydict -> pydict) :=
  [ (* Basic fields *)
    assign "name" (fun h => VStr (py_str (get_d h "Hospital Name" (VStr ""))));
    assign "short_name" (fun h => VStr (py_str (get_d h "Short Name" (VStr ""))));
    assign "address" (fun h => VStr (py_str (get_d h "Address" (VStr ""))));
    assign "city" (fun h => VStr (py_str (get_d h "City" (VStr ""))));
    assign "state" (fun h => VStr (py_str (get_d h "State" (VStr ""))));
    assign "county" (fun h => VStr (py_str (get_d h "County" (VStr ""))));
    assign "phone" (fun h => VStr (py_str (get_d h "Phone" (VStr ""))));
    assign "ir_phone" (fun h => VStr (if py_truthy (get h "IR Phone")
                                      then py_str (get_d h "IR Phone" (VStr ""))
                                      else ""));
    assign "lat" (fun h => of_pyfloat (safe_float (get h "Latitude") 0));
    assign "lng" (fun h => of_pyfloat (safe_float (get h "Longitude") 0));
    assign "beds" (fun h => VInt (safe_int (get h "Licensed Beds") 0));
    assign "affiliation" (fun h => VStr (py_str (get_d h "Affiliation" (VStr ""))));
    assign "gpo" (fun h => VStr (py_str (get_d h "Buy Group/GPO" (VStr ""))));
    assign "strokes_yr" (fun h => VInt (safe_int (get h "Strokes Per Year") 0));
    assign "comment" (fun h => VStr (if py_truthy (get h "Comment")
                                     then py_str (get_d h "Comment" (VStr ""))
                                     else ""));
    (* Certification *)
    assign "cert" (fun h =>
      VStr (strip (py_str (get_d h "Stroke Certification" (VStr "None")))));
    cert_default;
    assign "cert_body" (fun h => VStr (if py_truthy (get h "Cert Body")
                                       then py_str (get_d h "Cert Body" (VStr ""))
                                       else ""));
    assign "cert_color" (fun h =>
      VStr (assoc_get CERT_COLORS (py_str (get h "cert")) "#6B7280"));
    assign "cert_label" (fun h =>
      VStr (assoc_get CERT_LABELS (py_str (get h "cert")) "No Certification"));
    (* Fellowships *)
    assign "nsg_fellowship" (fun h => VBool (safe_bool (get h "Neurosurgery Fellowship") false));
    assign "nir_fellowship" (fun h => VBool (safe_bool (get h "Neuro IR Fellowship") false));
    (* Demographics *)
    assign "median_age" (fun h => of_pyfloat (safe_float (get h "Median Age") 0));
    assign "life_expectancy" (fun h => of_pyfloat (safe_float (get h "Life Expectancy") 0));
    demographics;
    (* Stroke epidemiology *)
    stroke_epidemiology;
    (* Infrastructure flags *)
    assign "cah" (fun h => VBool (safe_bool (get h "CAH Status") false));
    assign "telestroke" (fun h => VBool (safe_bool (get h "Telestroke Capable") false));
    assign "thrombectomy_24_7" (fun h => VBool (safe_bool (get h "24/7 Thrombectomy") false));
    assign "tpa_available" (fun h => VBool (safe_bool (get h "tPA Available") false));
    assign "neuro_icu" (fun h => VBool (safe_bool (get h "Neuro ICU") false));
    assign "ct_scanner" (fun h => VBool (safe_bool (get h "CT Scanner") false));
    assign "spoke_hospital" (fun h => VBool (safe_bool (get h "Spoke Hospital") false));
    (* A-Fib (optional) *)
    assign "afib_prevalence" (fun h => of_pyfloat (safe_float (get h "A-Fib Prevalence") 0));
    assign "afib_count" (fun h => VInt (safe_int (get h "A-Fib Absolute Count") 0));
    assign "mmae_score" (fun h => of_pyfloat (safe_float (get h "MMAE Score") 0));
    assign "clinical_benefit_radius" (fun h =>
      of_pyfloat (safe_float (get h "Clinical Benefit Radius (km)") 0));
    (* Geographic access *)
    assign "medevac_available" (fun h => VBool (safe_bool (get h "Medevac Available") false));
    assign "road_access" (fun h => VBool (safe_bool (get h "Road Access") true)) ].

(** Runs statements in order on the same dict. *)
Definition run_steps (steps : list (pydict -> pydict)) (h : pydict) : pydict :=
  fold_left (fun h step => step h) steps h.

(** [enrich_hospital(h)]: runs the statements in order on [h] and returns
    it. *)
Definition enrich_hospital (h : pydict) : pydict := run_steps enrich_steps h.

(** The cells [enrich_hospital] reads with [safe_int], in source order.
    Enrichment stores no key of these names, so each call reads the raw
    cell. *)
Definition int_columns : list string :=
  ["Licensed Beds"; "Strokes Per Year"; "Catchment Population";
   "Population 65+"; "A-Fib Absolute Count"].

(** The first exception of a sequence of calls. *)
Fixpoint first_error {A} (rs : list (result A)) : option pyexc :=
  match rs with
  | [] => None
  | Ok _ :: rs' => first_error rs'
  | Err e :: _ => Some e
  end.

(** The exception [enrich_hospital(h)] raises, if any: the first
    [safe_int] call that raises (no other statement of [enrich_hospital]
    raises). *)
Definition enrich_error (h : pydict) : option pyexc :=
  first_error (map (fun col => safe_int_res (get h col) 0) int_columns).

(** [enrich_hospital(h)] with its exception: [enrich_hospital h] is the
    dict it returns when it does not raise. *)
Definition enrich_hospital_checked (h : pydict) : result pydict :=
  match enrich_error h with
  | Some e => Err e
  | None => Ok (enrich_hospital h)
  end.

(** Every key [enrich_hospital] assigns. *)
Definition enrich_keys : list string :=
  ["name"; "short_name"; "address"; "city"; "state"; "county"; "phone";
   "ir_phone"; "lat"; "lng"; "beds"; "affiliation"; "gpo"; "strokes_yr";
   "comment"; "cert"; "cert_body"; "cert_color"; "cert_label";
   "nsg_fellowship"; "nir_fellowship"; "median_age"; "life_expectancy";
   "pop_total"; "pop_65_plus"; "pop_under_65"; "pop_65_pct"; "effective_pop"]
  ++ volume_keys ++
  ["cah"; "telestroke"; "thrombectomy_24_7"; "tpa_available"; "neuro_icu";
   "ct_scanner"; "spoke_hospital"; "afib_prevalence"; "afib_count";
   "mmae_score"; "clinical_benefit_radius"; "medevac_available"; "road_access"].

(* ------------------------------------------------------------------ *)
(** ** Scoring: [calculate_infrastructure_scores] *)

(** A finite number read out of a dict for arithmetic or comparison;
    values that are not numbers raise [TypeError] there. The stages that
    compute with [py_num] read ints, or floats that are finite by then;
    the record's coordinates, which may be infinite or nan, are read by
    [float_field]. *)
Definition py_num (v : pyval) : result R :=
  match v with
  | VBool b => Ok (if b then 1%R else 0%R)
  | VInt z => Ok (IZR z)
  | VFloat r => Ok r
  | _ => Err TypeError
  end.

(** [h[k]] used as a number. *)
Definition num_field (h : pydict) (k : string) : result R :=
  let? v := subscript h k in py_num v.

(** [max(xs, default=1) or 1] *)
Definition max_or_one (xs : list R) : R :=
  let m := match xs with [] => 1%R | x :: xs' => fold_left Rmax xs' x end in
  if reqb m 0 then 1%R else m.

(** [cert_map.get(h["cert"], INFRA_WEIGHTS["cert_none"])] *)
Definition cert_points (c : pyval) : Z :=
  match c with
  | VStr s => assoc_get [("CSC", W_cert_csc); ("PSC", W_cert_psc);
                         ("TSC", W_cert_tsc); ("TCC", W_cert_tsc)] s W_cert_none
  | _ => W_cert_none
  end.

(** [if h[k]: score += w] *)
Definition flag_points (h : pydict) (k : string) (w : Z) : result Z :=
  let? v := subscript h k in Ok (if py_truthy v then w else 0%Z).

(** [min(W, round((h["strokes_yr"] / max_strokes) * W))] *)
Definition volume_points (h : pydict) (max_strokes : R) : result Z :=
  let? s := num_field h "strokes_yr" in
  let? q := py_div s max_strokes in
  Ok (Z.min W_stroke_volume_max (py_round (q * IZR W_stroke_volume_max))).

(** The body of the loop: the score of one record. *)
Definition infrastructure_score (h : pydict) (max_strokes : R) : result Z :=
  let? c := subscript h "cert" in
  let score := cert_points c in
  let? p1 := flag_points h "thrombectomy_24_7" W_thrombectomy_24_7 in
  let? p2 := flag_points h "neuro_icu" W_neuro_icu in
  let? p3 := flag_points h "cah" W_cah in
  let? p4 := flag_points h "ct_scanner" W_ct_scanner in
  let? p5 := flag_points h "telestroke" W_telestroke in
  let? p6 := flag_points h "tpa_available" W_tpa in
  let? p7 := flag_points h "nsg_fellowship" W_nsg_fellowship in
  let? p8 := flag_points h "nir_fellowship" W_nir_fellowship in
  let? pv := volume_points h max_strokes in
  Ok (score + p1 + p2 + p3 + p4 + p5 + p6 + p7 + p8 + pv)%Z.

Definition calculate_infrastructure_scores (hospitals : list pydict)
  : result (list pydict) :=
  let? strokes := rmap (fun h => num_field h "strokes_yr") hospitals in
  let max_strokes := max_or_one strokes in
  rmap (fun h =>
          let? score := infrastructure_score h max_strokes in
          Ok (<["infrastructure_score" := VInt (Z.min score 100)]> h))
       hospitals.

(* ------------------------------------------------------------------ *)
(** ** Tiers: [assign_clinical_tiers] *)

(** Python's [<] on the key tuples [(score, strokes)]. *)
Definition key_lt (a b : R * R) : bool :=
  if reqb a.1 b.1 then rltb a.2 b.2 else rltb a.1 b.1.

(** Insert into a list sorted by decreasing key, after every element whose
    key is not smaller (equal keys keep their input order). *)
Fixpoint insert_desc (x : nat * (R * R)) (l : list (nat * (R * R)))
  : list (nat * (R * R)) :=
  match l with
  | [] => [x]
  | y :: l' => if key_lt y.2 x.2 then x :: l else y :: insert_desc x l'
  end.

(** [sorted(range(n), key=..., reverse=True)]: stable sort by decreasing
    key, returned as the list of the records' indices. *)
Definition sort_desc (keys : list (R * R)) : list nat :=
  map fst (fold_left (fun acc x => insert_desc x acc)
                     (combine (seq 0 (length keys)) keys) []).

Definition tier_label (t : Z) : string :=
  match t with
  | 1%Z => "High Complexity Hub"
  | 2%Z => "Regional Center"
  | _ => "Basic Capability"
  end.

(** [1 if i < t1 else (2 if i < t2 else 3)] with
    [t1, t2 = max(1, n // 3), max(2, 2 * n // 3)]. *)
Definition tier_of (n i : nat) : Z :=
  let t1 := Nat.max 1 (n / 3) in
  let t2 := Nat.max 2 (2 * n / 3) in
  if Nat.ltb i t1 then 1%Z else if Nat.ltb i t2 then 2%Z else 3%Z.

Definition set_tier (t : Z) (h : pydict) : pydict :=
  <["clinical_tier_label" := VStr (tier_label t)]> (<["clinical_tier" := VInt t]> h).

(** [for i, h in enumerate(sorted_h): ...] writing into the records. *)
Fixpoint write_tiers (n i : nat) (order : list nat) (hs : list pydict)
  : list pydict :=
  match order with
  | [] => hs
  | j :: order' =>
      let hs := match hs !! j with
                | Some h => <[j := set_tier (tier_of n i) h]> hs
                | None => hs
                end in
      write_tiers n (S i) order' hs
  end.

(** The sort key [(x["infrastructure_score"], x["strokes_yr"])]. *)
Definition tier_key (h : pydict) : result (R * R) :=
  let? a := num_field h "infrastructure_score" in
  let? b := num_field h "strokes_yr" in
  Ok (a, b).

Definition assign_clinical_tiers (hospitals : list pydict)
  : result (list pydict) :=
  let? keys := rmap tier_key hospitals in
  let sorted_h := sort_desc keys in
  Ok (write_tiers (length hospitals) 0 sorted_h hospitals).

(* ------------------------------------------------------------------ *)
(** ** Access categories: [assign_geographic_access] *)

(** The category of a travel time [t] in minutes. *)
Definition access_category (t : R) : string :=
  if rltb t 30 then "Local"
  else if rltb t 120 then "Short"
  else if rltb t 240 then "Long"
  else "Flight Required".

Definition assign_geographic_access (hospitals : list pydict)
  : result (list pydict) :=
  rmap (fun h =>
          let? t := py_num (get_d h "travel_time_min" (VInt 0)) in
          Ok (<["geographic_access" := VStr (access_category t)]> h))
       hospitals.

(* ------------------------------------------------------------------ *)
(** ** Travel: [haversine], [calculate_travel] *)

Open Scope R_scope.

(** [math.radians] *)
Definition radians (x : R) : R := x * (PI / 180).

Definition haversine (lat1 lon1 lat2 lon2 : R) : R :=
  let R := 3959 in
  let dlat := radians (lat2 - lat1) in
  let dlon := radians (lon2 - lon1) in
  let a := (sin (dlat / 2)) ^ 2
           + cos (radians lat1) * cos (radians lat2) * (sin (dlon / 2)) ^ 2 in
  R * 2 * asin (sqrt a).

Close Scope R_scope.

Record team_member := { tm_lat : R; tm_lng : R; tm_name : string }.

(** The part of the configuration the travel stage reads; its coordinates
    are finite numbers of the JSON file (the NaN and Infinity that
    [json.load] also accepts are not modelled). *)
Record config := {
  rep_base_lat : R;
  rep_base_lng : R;
  rep_name : string;
  team_members : list team_member }.

(** [team = [rep base] + config.get("team_members", [])] *)
Definition team_of (cfg : config) : list team_member :=
  {| tm_lat := rep_base_lat cfg; tm_lng := rep_base_lng cfg;
     tm_name := rep_name cfg |} :: team_members cfg.

(** [d < min_dist], with [None] standing for [float("inf")]. *)
Definition lt_dist (d : R) (min_dist : option R) : bool :=
  match min_dist with None => true | Some m => rltb d m end.

(** The inner loop [for tl in team: ...] on finite coordinates. *)
Definition nearest (lat lng : R) (team : list team_member) (closest : string)
  : option R * string :=
  fold_left (fun acc tl =>
               let d := haversine lat lng (tm_lat tl) (tm_lng tl) in
               if lt_dist d acc.1 then (Some d, tm_name tl) else acc)
            team (None, closest).

(** [h[k]] as an operand of float arithmetic and [math] functions. *)
Definition float_field (h : pydict) (k : string) : result pyfloat :=
  let? v := subscript h k in
  match v with
  | VInf neg => Ok (FInf neg)
  | VNaN => Ok FNaN
  | _ => let? r := py_num v in Ok (FFin r)
  end.

(** [haversine(lat1, lon1, lat2, lon2)] on a record's coordinates
    [lat1], [lon1], which may be infinite or nan, and a team location
    [lat2], [lon2]: when [lat1] is infinite so is [dlat], when [lon1] is
    so is [dlon], and [math.sin] of an infinity raises [ValueError];
    otherwise a nan makes [a], hence the result, nan. *)
Definition haversine_py (lat1 lon1 : pyfloat) (lat2 lon2 : R) : result pyfloat :=
  match lat1, lon1 with
  | FInf _, _ | _, FInf _ => Err ValueError
  | FFin x, FFin y => Ok (FFin (haversine x y lat2 lon2))
  | _, _ => Ok FNaN
  end.

(** The inner loop on the record's coordinates as floats: [nan < min_dist]
    is false, so a nan distance changes nothing ([haversine_py] gives no
    infinity). *)
Definition nearest_py (lat lng : pyfloat) (team : list team_member)
  (closest : string) : result (option R * string) :=
  fold_left (fun acc tl =>
               let? acc := acc in
               let? d := haversine_py lat lng (tm_lat tl) (tm_lng tl) in
               match d with
               | FFin r => Ok (if lt_dist r acc.1 then (Some r, tm_name tl) else acc)
               | _ => Ok acc
               end)
            team (Ok (None, closest)).

Definition travel_one (team : list team_member) (h : pydict) : result pydict :=
  let first := match team with tl :: _ => tm_name tl | [] => "" end in
  let? lat := float_field h "lat" in
  let? lng := float_field h "lng" in
  let? nc := nearest_py lat lng team first in
  match nc with
  | (Some min_dist, closest) =>
      Ok (<["closest_team_member" := VStr closest]>
         (<["travel_time_min" :=
              VInt (py_round (min_dist * (13 / 10) / 55 * 60)%R)]>
         (<["travel_miles" := VFloat (py_round1 (min_dist * (13 / 10))%R)]> h)))
  | (None, _) => Err OverflowError  (* min_dist is still inf: round(inf) *)
  end.

Definition calculate_travel (hospitals : list pydict) (cfg : config)
  : result (list pydict) :=
  rmap (travel_one (team_of cfg)) hospitals.

(* ------------------------------------------------------------------ *)
(** ** The pipeline of [main] *)

Definition run_pipeline (rows : list pydict) (cfg : config)
  : result (list pydict) :=
  let? hospitals := rmap enrich_hospital_checked rows in
  let? hospitals := calculate_infrastructure_scores hospitals in
  let? hospitals := assign_clinical_tiers hospitals in
  let? hospitals := calculate_travel hospitals cfg in
  assign_geographic_access hospitals.

(** [st] never changes the entry of key [k]. *)
Definition frames (k : string) (st : pydict -> pydict) : Prop :=
  forall h, st h !! k = h !! k.

(** Every key the pipeline stores into a record. *)
Definition derived_keys : list string :=
  enrich_keys ++
  ["infrastructure_score"; "clinical_tier"; "clinical_tier_label";
   "travel_miles"; "travel_time_min"; "closest_team_member";
   "geographic_access"].

(** The boolean columns read with [safe_bool(..)] and its default [False],
    with the key each one is stored under. *)
Definition bool_flag_columns : list (string * string) :=
  [("Neurosurgery Fellowship", "nsg_fellowship");
   ("Neuro IR Fellowship", "nir_fellowship");
   ("CAH Status", "cah"); ("Telestroke Capable", "telestroke");
   ("24/7 Thrombectomy", "thrombectomy_24_7"); ("tPA Available", "tpa_available");
   ("Neuro ICU", "neuro_icu"); ("CT Scanner", "ct_scanner");
   ("Spoke Hospital", "spoke_hospital"); ("Medevac Available", "medevac_available")].

(** [st] stores only keys of [ks]: every other entry of [h'] is the one
    of [h]. *)
Definition only_sets (ks : list string) (h h' : pydict) : Prop :=
  forall k, ~ In k ks -> h' !! k = h !! k.

(** [h[k]] is present and usable as a number. *)
Definition num_ok (h : pydict) (k : string) : Prop :=
  exists r, num_field h k = Ok r.

(** The keys [calculate_infrastructure_scores] subscripts. *)
Definition score_flag_keys : list string :=
  ["thrombectomy_24_7"; "neuro_icu"; "cah"; "ct_scanner"; "telestroke";
   "tpa_available"; "nsg_fellowship"; "nir_fellowship"].

(** What the stages after [enrich_hospital] read from a record. *)
Definition scorable (h : pydict) : Prop :=
  (exists c, h !! "cert" = Some c) /\
  Forall (fun k => exists v, h !! k = Some v) score_flag_keys /\
  num_ok h "strokes_yr".

(** The record's coordinates are finite floats. *)
Definition coords_finite (h : pydict) : Prop :=
  exists x y, float_field h "lat" = Ok (FFin x) /\ float_field h "lng" = Ok (FFin y).

(** The keys stored after [enrich_hospital]. *)
Definition later_keys : list string :=
  ["infrastructure_score"; "clinical_tier"; "clinical_tier_label";
   "travel_miles"; "travel_time_min"; "closest_team_member";
   "geographic_access"].

(** The relation between neighbours of a list sorted by decreasing key. *)
Definition not_below (a b : nat * (R * R)) : Prop := key_lt a.2 b.2 = false.

(** The keys [assign_clinical_tiers] stores. *)
Definition tier_keys_stored : list string := ["clinical_tier"; "clinical_tier_label"].

(** The keys [calculate_travel] stores. *)
Definition travel_keys_stored : list string :=
  ["travel_miles"; "travel_time_min"; "closest_team_member"].

(* ------------------------------------------------------------------ *)
(** ** Loading the sheet: [load_excel]

    The workbook is read by openpyxl; what [load_excel] does with its
    cells is modelled: [header] are the values of the first row ([ws[1]]),
    [rows] the tuples of [ws.iter_rows(min_row=2, values_only=True)]. *)

Definition REQUIRED_COLUMNS : list string :=
  ["Hospital Name"; "Short Name"; "Address"; "City"; "State"; "County";
   "Latitude"; "Longitude"; "Phone"; "Licensed Beds"; "Affiliation";
   "Buy Group/GPO"; "Stroke Certification"; "Strokes Per Year"].

(** [str(c.value).strip() if c.value else ""] *)
Definition header_of (v : pyval) : string :=
  if py_truthy v then strip (py_str v) else "".

(** [{headers[i]: row[i] if i < len(row) else None
      for i in range(len(headers))}], [i] running from the column [i] of the
    first header given. *)
Fixpoint row_record_from (i : nat) (headers : list string) (row : list pyval)
  (d : pydict) : pydict :=
  match headers with
  | [] => d
  | k :: headers' =>
      row_record_from (S i) headers' row
        (<[k := match row !! i with Some v => v | None => VNone end]> d)
  end.

Definition row_record (headers : list string) (row : list pyval) : pydict :=
  row_record_from 0 headers row ∅.

(** The loop over the data rows; [None] where [row[0]] raises
    [IndexError] (an empty tuple). *)
Fixpoint load_rows (headers : list string) (rows : list (list pyval))
  : option (list pydict) :=
  match rows with
  | [] => Some []
  | row :: rows' =>
      match row with
      | [] => None
      | c :: _ =>
          match load_rows headers rows' with
          | Some hs => Some (if py_truthy c then row_record headers row :: hs else hs)
          | None => None
          end
      end
  end.

Inductive load_result :=
| Loaded (hospitals : list pydict)
| Exited (code : Z)          (* [sys.exit(code)] *)
| LoadIndexError.

Definition load_excel (header : list pyval) (rows : list (list pyval)) : load_result :=
  let headers := map header_of header in
  let missing := List.filter (fun c => negb (str_in c headers)) REQUIRED_COLUMNS in
  match missing with
  | _ :: _ => Exited 1
  | [] => match load_rows headers rows with
          | Some hs => Loaded hs
          | None => LoadIndexError
          end
  end.

(* ------------------------------------------------------------------ *)
(** ** The configuration: [load_config] *)

(** JSON values, as [json.load] returns them. *)
#[warnings="-register-all"]
Inductive jval :=
| JNull
| JBool (b : bool)
| JNum (r : R)
| JStr (s : string)
| JList (l : list jval)
| JObj (kvs : list (string * jval)).

Definition default_config : gmap string jval :=
  list_to_map
    [("rep_name", JStr "Territory Rep"); ("rep_role", JStr "CAS");
     ("rep_base_city", JStr ""); ("rep_base_lat", JNum 0); ("rep_base_lng", JNum 0);
     ("territory_name", JStr "Territory"); ("map_center_lat", JNum 0);
     ("map_center_lng", JNum 0); ("map_zoom", JNum 7); ("team_members", JList [])].

(** The command-line options [load_config] reads ([None]: not given). *)
Record cli_args := { arg_rep : option string; arg_territory : option string }.

(** [config.update(pairs)], the pairs in the order of the JSON object
    (a key given twice keeps its last value, as in [json.load]). *)
Definition dict_update (c : gmap string jval) (kvs : list (string * jval))
  : gmap string jval :=
  fold_left (fun c kv => <[kv.1 := kv.2]> c) kvs c.

(** [if opt: config[k] = opt] on an optional str option. *)
Definition set_if_given (k : string) (o : option string) (c : gmap string jval)
  : gmap string jval :=
  match o with
  | Some s => if String.eqb s "" then c else <[k := JStr s]> c
  | None => c
  end.

(** [file] is [Some] of the pairs of the JSON object read when
    [config_path] is given and exists, [None] otherwise. *)
Definition load_config (file : option (list (string * jval)))
  (args : option cli_args) : gmap string jval :=
  let config := default_config in
  let config := match file with Some kvs => dict_update config kvs | None => config end in
  match args with
  | Some a => set_if_given "territory_name" (arg_territory a)
                (set_if_given "rep_name" (arg_rep a) config)
  | None => config
  end.

(* ------------------------------------------------------------------ *)
(** ** Serialisation: [serialize_hospital] *)

Definition serialize_keys : list string :=
  ["name"; "short_name"; "address"; "city"; "state"; "county";
   "lat"; "lng"; "phone"; "ir_phone"; "beds"; "affiliation"; "gpo";
   "cert"; "cert_body"; "cert_color"; "cert_label";
   "nsg_fellowship"; "nir_fellowship"; "strokes_yr";
   "pop_total"; "pop_65_plus"; "pop_under_65"; "pop_65_pct"; "effective_pop";
   "median_age"; "life_expectancy";
   "ischemic_volume"; "lvo_volume"; "mt_eligible";
   "avm_aneurysm_volume"; "hemorrhagic_volume";
   "sah_volume"; "ich_volume"; "hemorrhagic_other"; "total_stroke_volume";
   "afib_prevalence"; "afib_count"; "mmae_score"; "clinical_benefit_radius";
   "cah"; "telestroke"; "thrombectomy_24_7"; "tpa_available";
   "neuro_icu"; "ct_scanner"; "spoke_hospital";
   "infrastructure_score"; "clinical_tier"; "clinical_tier_label";
   "medevac_available"; "road_access"; "geographic_access";
   "travel_miles"; "travel_time_min"; "closest_team_member"; "comment"].

(** [{k: h.get(k) for k in keys}] *)
Definition serialize_hospital (h : pydict) : pydict :=
  fold_left (fun d k => <[k := get h k]> d) serialize_keys ∅.

(* ------------------------------------------------------------------ *)
(** ** Counting: [render_template] and the summary of [main] *)

(** [v == w] between values (numbers compare by value across bool, int
    and float). *)
Definition py_eq (v w : pyval) : bool :=
  match py_num v, py_num w with
  | Ok a, Ok b => reqb a b
  | _, _ =>
      match v, w with
      | VNone, VNone => true
      | VInf a, VInf b => Bool.eqb a b
      | VStr s, VStr t => String.eqb s t
      | _, _ => false
      end
  end.

(** [d[k] += 1] on a dict literal with str keys, [k] present. *)
Fixpoint assoc_incr (k : string) (d : list (string * Z)) : list (string * Z) :=
  match d with
  | [] => []
  | (k', n) :: d' => if String.eqb k k' then (k', n + 1)%Z :: d'
                     else (k', n) :: assoc_incr k d'
  end.

(** [d[k] = d.get(k, 0) + 1] on a dict keyed by values; a new key goes
    last, an existing key keeps its first spelling. *)
Fixpoint counter_incr (k : pyval) (d : list (pyval * Z)) : list (pyval * Z) :=
  match d with
  | [] => [(k, 1%Z)]
  | (k', n) :: d' => if py_eq k k' then (k', n + 1)%Z :: d'
                     else (k', n) :: counter_incr k d'
  end.

Definition cert_counts0 : list (string * Z) :=
  [("CSC", 0%Z); ("PSC", 0%Z); ("TSC", 0%Z); ("TCC", 0%Z); ("None", 0%Z)].

Definition tier_counts0 : list (pyval * Z) :=
  [(VInt 1, 0%Z); (VInt 2, 0%Z); (VInt 3, 0%Z)].

(** One iteration of the counting loop of [render_template]. *)
Definition count_one (acc : list (string * Z) * list (pyval * Z)) (h : pydict)
  : result (list (string * Z) * list (pyval * Z)) :=
  let? c := subscript h "cert" in
  let ck := match c with
            | VStr s => if assoc_mem acc.1 s then s else "None"
            | _ => "None"
            end in
  let cc := assoc_incr ck acc.1 in
  let? t := subscript h "clinical_tier" in
  Ok (cc, counter_incr t acc.2).

Fixpoint count_loop (acc : list (string * Z) * list (pyval * Z)) (hs : list pydict)
  : result (list (string * Z) * list (pyval * Z)) :=
  match hs with
  | [] => Ok acc
  | h :: hs' => let? acc := count_one acc h in count_loop acc hs'
  end.

(** [cert_counts] and [tier_counts] of [render_template] (the template
    itself is rendered by jinja2 and is not modelled). *)
Definition render_counts (hospitals : list pydict)
  : result (list (string * Z) * list (pyval * Z)) :=
  count_loop (cert_counts0, tier_counts0) hospitals.

(** [sum(1 for h in hs if p(h[k]))] *)
Fixpoint count_where (k : string) (p : pyval -> bool) (hs : list pydict) : result nat :=
  match hs with
  | [] => Ok 0%nat
  | h :: hs' => let? v := subscript h k in
                let? n := count_where k p hs' in
                Ok (if p v then S n else n)
  end.

(** [sum(1 for h in hospitals if h['clinical_tier'] == t)] *)
Definition count_tier (t : Z) (hs : list pydict) : result nat :=
  count_where "clinical_tier" (fun v => py_eq v (VInt t)) hs.

(** [sum(h[k] for h in hs)], added from the left. *)
Fixpoint sum_field (k : string) (hs : list pydict) (acc : R) : result R :=
  match hs with
  | [] => Ok acc
  | h :: hs' => let? x := num_field h k in sum_field k hs' (acc + x)%R
  end.

(** [round(x, 4)] *)
Definition py_round4 (x : R) : R := (IZR (py_round (x * 10000)) / 10000)%R.

(** What [main] prints in its summary. *)
Record summary := {
  sum_t1 : nat; sum_t2 : nat; sum_t3 : nat;
  sum_count : nat; sum_beds : R; sum_strokes : R; sum_ischemic : R;
  sum_lvo : R; sum_mt : R; sum_csc : nat; sum_psc : nat; sum_tsc : nat;
  sum_avg_infra : Z }.

(** The body of [main] after loading: the pipeline, the default map
    centre, [render_template]'s counts (the HTML and the file written
    are not modelled) and the summary. [center] is
    [(config["map_center_lat"], config["map_center_lng"])]; the result is
    the centre used and the summary. *)
Definition main_summary (rows : list pydict) (cfg : config) (center : R * R)
  : result ((R * R) * summary) :=
  let? hospitals := run_pipeline rows cfg in
  let n := INR (length hospitals) in
  let? center :=
    if reqb center.1 0 && reqb center.2 0 then
      let? sl := sum_field "lat" hospitals 0 in
      let? la := py_div sl n in
      let? sg := sum_field "lng" hospitals 0 in
      let? lo := py_div sg n in
      Ok (py_round4 la, py_round4 lo)
    else Ok center in
  let? _ := render_counts hospitals in
  let? t1 := count_tier 1 hospitals in
  let? t2 := count_tier 2 hospitals in
  let? t3 := count_tier 3 hospitals in
  let? beds := sum_field "beds" hospitals 0 in
  let? strokes := sum_field "strokes_yr" hospitals 0 in
  let? isch := sum_field "ischemic_volume" hospitals 0 in
  let? lvo := sum_field "lvo_volume" hospitals 0 in
  let? mt := sum_field "mt_eligible" hospitals 0 in
  let? csc := count_where "cert" (fun v => py_eq v (VStr "CSC")) hospitals in
  let? psc := count_where "cert" (fun v => py_eq v (VStr "PSC")) hospitals in
  let? tsc := count_where "cert"
                (fun v => py_eq v (VStr "TSC") || py_eq v (VStr "TCC")) hospitals in
  let? si := sum_field "infrastructure_score" hospitals 0 in
  let? avg := py_div si n in
  Ok (center, {| sum_t1 := t1; sum_t2 := t2; sum_t3 := t3;
                 sum_count := length hospitals; sum_beds := beds;
                 sum_strokes := strokes; sum_ischemic := isch; sum_lvo := lvo;
                 sum_mt := mt; sum_csc := csc; sum_psc := psc; sum_tsc := tsc;
                 sum_avg_infra := py_round avg |}).

(* ================================================================== *)
(** * Properties *)

(* ------------------------------------------------------------------ *)
(** ** Rounding on reals *)

Open Scope R_scope.

Lemma Int_part_unique (x : R) (k : Z) :
  IZR k <= x < IZR k + 1 -> Int_part x = k.
Proof.
  intros [H1 H2]. destruct (base_Int_part x) as [B1 B2].
  assert (Int_part x < k + 1)%Z.
  { apply lt_IZR. rewrite plus_IZR. lra. }
  assert (k - 1 < Int_part x)%Z.
  { apply lt_IZR. rewrite minus_IZR. lra. }
  lia.
Qed.

Lemma Int_part_bounds (x : R) : IZR (Int_part x) <= x < IZR (Int_part x) + 1.
Proof. destruct (base_Int_part x). lra. Qed.

Lemma rltb_true (x y : R) : rltb x y = true <-> x < y.
Proof. unfold rltb. destruct (Rlt_dec x y); split; intros; congruence || lra. Qed.

Lemma rltb_false (x y : R) : rltb x y = false <-> y <= x.
Proof. unfold rltb. destruct (Rlt_dec x y); split; intros; congruence || lra. Qed.

Lemma reqb_true (x y : R) : reqb x y = true <-> x = y.
Proof. unfold reqb. destruct (Req_dec_T x y); split; intros; congruence. Qed.

Lemma reqb_false (x y : R) : reqb x y = false <-> x <> y.
Proof. unfold reqb. destruct (Req_dec_T x y); split; intros; congruence. Qed.

(** The two halves of [round] around the fractional part [1/2]. *)
Lemma py_round_cases (x : R) :
  let f := Int_part x in
  (x - IZR f < 1/2 /\ py_round x = f) \/
  (1/2 < x - IZR f /\ py_round x = (f + 1)%Z) \/
  (x - IZR f = 1/2 /\ py_round x = (if Z.even f then f else f + 1)%Z).
Proof.
  cbv zeta. unfold py_round.
  destruct (rltb (x - IZR (Int_part x)) (1/2)) eqn:E1.
  - left. apply rltb_true in E1. auto.
  - apply rltb_false in E1.
    destruct (rltb (1/2) (x - IZR (Int_part x))) eqn:E2.
    + right; left. apply rltb_true in E2. auto.
    + apply rltb_false in E2. right; right. split; [lra | reflexivity].
Qed.

Lemma py_round_IZR (z : Z) : py_round (IZR z) = z.
Proof.
  assert (Int_part (IZR z) = z) as Hz by (apply Int_part_unique; lra).
  destruct (py_round_cases (IZR z)) as [[_ ->]|[[H _]|[H _]]]; rewrite Hz in *;
    lra || reflexivity.
Qed.

Lemma py_round_mono (x y : R) : x <= y -> (py_round x <= py_round y)%Z.
Proof.
  intros Hxy.
  pose proof (Int_part_bounds x) as Bx. pose proof (Int_part_bounds y) as By.
  assert (Int_part x <= Int_part y)%Z as Hf.
  { assert (Int_part x < Int_part y + 1)%Z; [|lia].
    apply lt_IZR. rewrite plus_IZR. lra. }
  destruct (Z.eq_dec (Int_part x) (Int_part y)) as [E|E].
  - destruct (py_round_cases x) as [[Hx ->]|[[Hx ->]|[Hx ->]]];
    destruct (py_round_cases y) as [[Hy ->]|[[Hy ->]|[Hy ->]]];
    rewrite ?E in *; try lia; try lra;
    destruct (Z.even (Int_part y)); lia || lra.
  - assert (Int_part x + 1 <= Int_part y)%Z by lia.
    destruct (py_round_cases x) as [[_ ->]|[[_ ->]|[_ ->]]];
    destruct (py_round_cases y) as [[_ ->]|[[_ ->]|[_ ->]]];
    repeat match goal with |- context [Z.even ?f] => destruct (Z.even f) end;
    lia.
Qed.

(** [round(a / b)] computed on integers. *)
Lemma py_round_div (a b : Z) :
  (0 < b)%Z -> py_round (IZR a / IZR b) = round_div a b.
Proof.
  intros Hb. unfold round_div.
  pose proof (Z.div_mod a b ltac:(lia)) as Ha.
  pose proof (Z.mod_pos_bound a b Hb) as Hr.
  set (q := (a / b)%Z) in *. set (r := (a mod b)%Z) in *.
  assert (Hb' : 0 < IZR b) by (apply IZR_lt; lia).
  assert (Hx : IZR a / IZR b = IZR q + IZR r / IZR b).
  { rewrite Ha at 1. rewrite plus_IZR, mult_IZR. field. lra. }
  assert (Hr0 : 0 <= IZR r) by (apply IZR_le; lia).
  assert (Hrb : IZR r < IZR b) by (apply IZR_lt; lia).
  set (t := IZR r / IZR b) in *.
  assert (Ht : IZR r = t * IZR b) by (unfold t; field; lra).
  assert (Hq : Int_part (IZR a / IZR b) = q).
  { apply Int_part_unique. rewrite Hx. split; nra. }
  destruct (py_round_cases (IZR a / IZR b)) as [[H ->]|[[H ->]|[H ->]]];
    rewrite Hq in *; rewrite Hx in H;
    destruct (Z.compare_spec (2 * r) b) as [C|C|C];
    try reflexivity;
    try (apply IZR_lt in C || apply IZR_eq in C); rewrite ?mult_IZR in C;
    try nra.
Qed.

Close Scope R_scope.

Lemma py_trunc_IZR (z : Z) : py_trunc (IZR z) = z.
Proof.
  unfold py_trunc. destruct (Rle_dec 0 (IZR z)).
  - apply Int_part_unique. lra.
  - rewrite <- opp_IZR. rewrite (Int_part_unique (IZR (- z)) (- z)); [lia | lra].
Qed.

Lemma safe_int_VInt (z d : Z) : safe_int (VInt z) d = z.
Proof. apply py_trunc_IZR. Qed.

(* ------------------------------------------------------------------ *)
(** ** Which keys a statement of [enrich_hospital] leaves alone *)

Lemma assign_frame (k k' : string) (f : pydict -> pyval) :
  k' <> k -> frames k (assign k' f).
Proof. intros Hk h. unfold assign. by rewrite lookup_insert_ne. Qed.

Lemma cert_default_frame (k : string) : k <> "cert" -> frames k cert_default.
Proof.
  intros Hk h. unfold cert_default.
  destruct (assoc_mem _ _); [done|]. by rewrite lookup_insert_ne.
Qed.

Lemma demographics_frame (k : string) :
  ~ In k ["pop_total"; "pop_65_plus"; "pop_under_65"; "pop_65_pct"; "effective_pop"] ->
  frames k demographics.
Proof.
  intros Hk h. unfold demographics. simpl in Hk.
  rewrite !lookup_insert_ne; [done|..]; intros ?; subst; tauto.
Qed.

Lemma zero_volumes_frame (k : string) (h : pydict) :
  ~ In k volume_keys -> zero_volumes h !! k = h !! k.
Proof.
  unfold zero_volumes. generalize h. induction volume_keys as [|k' ks IH];
    intros h' Hk; [done|].
  simpl. rewrite IH by (simpl in Hk; tauto).
  rewrite lookup_insert_ne; [done|]. intros ?; subst. simpl in Hk. tauto.
Qed.

Lemma stroke_epidemiology_frame (k : string) :
  ~ In k volume_keys -> frames k stroke_epidemiology.
Proof.
  intros Hk h. unfold stroke_epidemiology.
  destruct (0 <? effective_pop_of h)%Z; [|by apply zero_volumes_frame].
  unfold stroke_volumes. simpl in Hk.
  rewrite !lookup_insert_ne; [done|..]; intros ?; subst; tauto.
Qed.

Lemma run_steps_app (s1 s2 : list (pydict -> pydict)) (h : pydict) :
  run_steps (s1 ++ s2) h = run_steps s2 (run_steps s1 h).
Proof. unfold run_steps. by rewrite fold_left_app. Qed.

Lemma run_steps_frame (k : string) (steps : list (pydict -> pydict)) (h : pydict) :
  Forall (frames k) steps -> run_steps steps h !! k = h !! k.
Proof.
  unfold run_steps. intros Hs. revert h.
  induction Hs as [|st steps Hst _ IH]; intros h; [done|].
  simpl. by rewrite IH, Hst.
Qed.

Lemma get_frame (k : string) (steps : list (pydict -> pydict)) (h : pydict) :
  Forall (frames k) steps -> get (run_steps steps h) k = get h k.
Proof. intros Hs. unfold get, get_d. by rewrite run_steps_frame. Qed.

(** Splits [~ In k [a; b; ...]] into [k <> a], [k <> b], ... *)
Ltac notin_split H :=
  repeat match type of H with
         | ~ In _ (_ :: _) => apply not_in_cons in H as [? H]
         end.

(** Proves [Forall (frames k) steps] for a concrete list of statements,
    from hypotheses [k <> a] for the keys [a] they store. *)
Ltac solve_frames :=
  repeat constructor;
  first
    [ apply assign_frame
    | apply cert_default_frame
    | apply demographics_frame
    | apply stroke_epidemiology_frame ];
  first
    [ discriminate
    | intros ?; subst; congruence
    | let H := fresh in intros H; simpl in H;
      repeat destruct H as [H|H]; subst; congruence ].

Lemma enrich_frame (k : string) (h : pydict) :
  ~ In k enrich_keys -> enrich_hospital h !! k = h !! k.
Proof.
  intros Hk. unfold enrich_hospital. apply run_steps_frame.
  unfold enrich_keys, volume_keys in Hk. simpl app in Hk. notin_split Hk.
  unfold enrich_steps. solve_frames.
Qed.

Lemma run_steps_split (n : nat) (steps : list (pydict -> pydict)) (h : pydict) :
  n < length steps ->
  run_steps steps h =
  run_steps (skipn (S n) steps) (nth n steps Datatypes.id (run_steps (firstn n steps) h)).
Proof.
  intros Hn. rewrite <- (firstn_skipn n steps) at 1. rewrite run_steps_app.
  assert (skipn n steps = nth n steps Datatypes.id :: skipn (S n) steps) as ->.
  { revert n Hn. induction steps as [|st steps IH]; intros [|n] Hn; simpl in *;
      [lia|lia|done|]. apply IH. lia. }
  reflexivity.
Qed.

(** The entry [k] after [enrich_hospital] is the one stored by statement
    [n] when no later statement stores [k]. *)
Lemma enrich_lookup_at (n : nat) (k : string) (h : pydict) :
  n < length enrich_steps ->
  Forall (frames k) (skipn (S n) enrich_steps) ->
  enrich_hospital h !! k =
  nth n enrich_steps Datatypes.id (run_steps (firstn n enrich_steps) h) !! k.
Proof.
  intros Hn Hs. unfold enrich_hospital.
  rewrite (run_steps_split n) by done. by apply run_steps_frame.
Qed.

(** A raw column read by statement [n] is the raw cell. *)
Lemma enrich_read_at (n : nat) (k : string) (h : pydict) :
  Forall (frames k) (firstn n enrich_steps) ->
  get (run_steps (firstn n enrich_steps) h) k = get h k.
Proof. apply get_frame. Qed.

(** Rewrites [enrich_hospital h !! k] to what statement [n] stores. *)
Ltac enrich_at n :=
  rewrite (enrich_lookup_at n);
  [ cbn [nth enrich_steps]
  | cbn; lia
  | cbn [skipn enrich_steps]; solve_frames ].

(** Rewrites a read of a raw column in the dict statement [n] sees. *)
Ltac raw_read n k :=
  rewrite (enrich_read_at n k);
  [ | cbn [firstn enrich_steps]; solve_frames ].

Lemma assign_lookup (k : string) (f : pydict -> pyval) (h : pydict) :
  assign k f h !! k = Some (f h).
Proof. unfold assign. by rewrite lookup_insert_eq. Qed.

(** A boolean statement [n] of [enrich_hospital] stores [safe_bool] of its
    raw column. *)
Ltac flag_at n col :=
  enrich_at n; rewrite assign_lookup; raw_read n col.

(** ** C10: absent boolean cells *)

(** C10: when the "Road Access" cell is absent (missing or None) the
    normalised [road_access] is [True]; when the cell of any other boolean
    flag (both fellowships, CAH, telestroke, 24/7 thrombectomy, tPA, neuro
    ICU, CT scanner, spoke, medevac) is absent, that flag is [False]. *)
Theorem absent_flags_default (h : pydict) :
  (get h "Road Access" = VNone ->
   enrich_hospital h !! "road_access" = Some (VBool true)) /\
  Forall (fun '(col, key) =>
            get h col = VNone -> enrich_hospital h !! key = Some (VBool false))
         bool_flag_columns.
Proof.
  split.
  { intros H. flag_at 38 "Road Access". by rewrite H. }
  repeat constructor; intros H.
  - flag_at 20 "Neurosurgery Fellowship". by rewrite H.
  - flag_at 21 "Neuro IR Fellowship". by rewrite H.
  - flag_at 26 "CAH Status". by rewrite H.
  - flag_at 27 "Telestroke Capable". by rewrite H.
  - flag_at 28 "24/7 Thrombectomy". by rewrite H.
  - flag_at 29 "tPA Available". by rewrite H.
  - flag_at 30 "Neuro ICU". by rewrite H.
  - flag_at 31 "CT Scanner". by rewrite H.
  - flag_at 32 "Spoke Hospital". by rewrite H.
  - flag_at 37 "Medevac Available". by rewrite H.
Qed.

(* ------------------------------------------------------------------ *)
(** ** Demographics and stroke volumes of one record *)

Lemma run_steps_firstn_S (n : nat) (steps : list (pydict -> pydict)) (h : pydict) :
  n < length steps ->
  run_steps (firstn (S n) steps) h =
  nth n steps Datatypes.id (run_steps (firstn n steps) h).
Proof.
  intros Hn.
  assert (firstn (S n) steps = app (firstn n steps) [nth n steps Datatypes.id]) as ->.
  { revert n Hn. induction steps as [|st steps IH]; intros [|n] Hn; simpl in *;
      [lia|lia|done|]. f_equal. apply IH. lia. }
  rewrite run_steps_app. reflexivity.
Qed.

Lemma zero_volumes_lookup (k : string) (h : pydict) :
  In k volume_keys -> zero_volumes h !! k = Some (VInt 0).
Proof.
  unfold zero_volumes. generalize h. induction volume_keys as [|k' ks IH];
    intros h' Hk; [done|].
  simpl. destruct (in_dec string_dec k ks) as [Hin|Hin]; [by apply IH|].
  destruct Hk as [->|Hk]; [|done].
  assert (Hf : forall m : pydict, fold_left (fun h k => <[k := VInt 0]> h) ks m !! k = m !! k).
  { clear IH. induction ks as [|k'' ks IH']; intros m; [done|].
    simpl. rewrite IH' by (simpl in Hin; tauto).
    rewrite lookup_insert_ne; [done|]. intros ?; subst. simpl in Hin. tauto. }
  rewrite Hf. by rewrite lookup_insert_eq.
Qed.

(** What [enrich_hospital] stores for the catchment figures and the
    ischemic and hemorrhagic volumes, in terms of the two raw cells. *)
Lemma enrich_epidemiology (h : pydict) :
  let pop_total := safe_int (get h "Catchment Population") 0 in
  let pop_65 := safe_int (get h "Population 65+") 0 in
  let pop_65 := if (0 <? pop_total)%Z && (pop_65 =? 0)%Z
                then py_trunc (IZR pop_total * default_65_plus_pct) else pop_65 in
  let ep := if (0 <? pop_total)%Z
            then py_round (IZR (Z.max 0 (pop_total - pop_65)) + IZR pop_65 * age_65_multiplier)%R
            else 0%Z in
  enrich_hospital h !! "pop_65_pct" =
    Some (if (0 <? pop_total)%Z
          then VFloat (py_round1 (IZR pop_65 / IZR pop_total * 100)%R) else VInt 0) /\
  enrich_hospital h !! "effective_pop" = Some (VInt ep) /\
  enrich_hospital h !! "ischemic_volume" =
    Some (VInt (if (0 <? ep)%Z
                then py_round (IZR (ep * ischemic_per_100k) / 100000)%R else 0%Z)) /\
  enrich_hospital h !! "hemorrhagic_volume" =
    Some (VInt (if (0 <? ep)%Z
                then py_round (IZR (ep * hemorrhagic_per_100k) / 100000)%R else 0%Z)).
Proof.
  intros pop_total pop_650 pop_65 ep.
  set (h1 := run_steps (firstn 24 enrich_steps) h).
  assert (Hep : demographics h1 !! "effective_pop" = Some (VInt ep)).
  { unfold h1, demographics. raw_read 24 "Catchment Population".
    raw_read 24 "Population 65+". by rewrite lookup_insert_eq. }
  assert (Hepo : effective_pop_of (demographics h1) = ep).
  { unfold effective_pop_of. by rewrite Hep. }
  split; [|split; [|split]].
  - enrich_at 24. unfold demographics. raw_read 24 "Catchment Population".
    raw_read 24 "Population 65+".
    rewrite lookup_insert_ne by discriminate. by rewrite lookup_insert_eq.
  - enrich_at 24. exact Hep.
  - enrich_at 25. rewrite run_steps_firstn_S by (cbn; lia). fold h1.
    unfold stroke_epidemiology. cbn [nth enrich_steps]. rewrite Hepo.
    destruct (0 <? ep)%Z; [|by apply zero_volumes_lookup; simpl; tauto].
    unfold stroke_volumes. cbv zeta.
    rewrite !lookup_insert_ne by discriminate. by rewrite lookup_insert_eq.
  - enrich_at 25. rewrite run_steps_firstn_S by (cbn; lia). fold h1.
    unfold stroke_epidemiology. cbn [nth enrich_steps]. rewrite Hepo.
    destruct (0 <? ep)%Z; [|by apply zero_volumes_lookup; simpl; tauto].
    unfold stroke_volumes. cbv zeta.
    rewrite !lookup_insert_ne by discriminate. by rewrite lookup_insert_eq.
Qed.

(** ** C4: the 680000 / 108800 scenario *)

(** C4: a record with catchment population 680000 and population 65+
    108800 gets [pop_65_pct = 16.0], [effective_pop = 843200]
    (571200 + 108800 * 2.5) and [ischemic_volume = round(843200 * 216 /
    100000) = 1821]. *)
Theorem scenario_680000_epidemiology (h : pydict)
  (HT : get h "Catchment Population" = VInt 680000)
  (HP : get h "Population 65+" = VInt 108800) :
  enrich_hospital h !! "pop_65_pct" = Some (VFloat 16) /\
  enrich_hospital h !! "effective_pop" = Some (VInt 843200) /\
  enrich_hospital h !! "ischemic_volume" = Some (VInt 1821).
Proof.
  destruct (enrich_epidemiology h) as (H1 & H2 & H3 & _).
  cbv zeta in H1, H2, H3. rewrite HT, HP, !safe_int_VInt in H1, H2, H3.
  replace ((0 <? 680000)%Z && (108800 =? 0)%Z) with false in H1, H2, H3
    by reflexivity.
  replace (0 <? 680000)%Z with true in H1, H2, H3 by reflexivity.
  replace (Z.max 0 (680000 - 108800)) with 571200%Z in H2, H3 by reflexivity.
  replace (IZR 571200 + IZR 108800 * age_65_multiplier)%R with (IZR 843200)
    in H2, H3 by (unfold age_65_multiplier; lra).
  rewrite py_round_IZR in H2, H3.
  replace (0 <? 843200)%Z with true in H3 by reflexivity.
  split; [|split; [exact H2|]].
  - rewrite H1. do 2 f_equal. unfold py_round1.
    replace (IZR 108800 / IZR 680000 * 100 * 10)%R
      with (IZR 108800000 / IZR 680000)%R by (field; lra).
    rewrite py_round_div by lia.
    assert (round_div 108800000 680000 = 160%Z) as -> by reflexivity. lra.
  - rewrite H3. do 2 f_equal. unfold ischemic_per_100k.
    rewrite py_round_div by lia. reflexivity.
Qed.

(* ------------------------------------------------------------------ *)
(** ** Certification *)

Lemma get_d_frame (k : string) (d : pyval) (steps : list (pydict -> pydict)) (h : pydict) :
  Forall (frames k) steps -> get_d (run_steps steps h) k d = get_d h k d.
Proof. intros Hs. unfold get_d. by rewrite run_steps_frame. Qed.

Lemma assoc_mem_In {A} (d : list (string * A)) (k : string) :
  assoc_mem d k = true <-> In k (map fst d).
Proof.
  unfold assoc_mem. rewrite existsb_exists. split.
  - intros [[k' v] [Hin Heq]]. apply String.eqb_eq in Heq. simpl in Heq. subst.
    apply in_map_iff. eexists; split; [|exact Hin]. reflexivity.
  - intros Hin. apply in_map_iff in Hin as [[k' v] [Heq Hin]]. simpl in Heq. subst.
    eexists; split; [exact Hin|]. apply String.eqb_refl.
Qed.

(** What [enrich_hospital] stores under ["cert"]. *)
Lemma enrich_cert (h : pydict) :
  let c := strip (py_str (get_d h "Stroke Certification" (VStr "None"))) in
  enrich_hospital h !! "cert" =
  Some (VStr (if assoc_mem CERT_COLORS c then c else "None")).
Proof.
  intros c. subst c. enrich_at 16. rewrite run_steps_firstn_S by (cbn; lia).
  cbn [nth enrich_steps]. unfold cert_default.
  match goal with
  | |- context [get (assign "cert" ?f ?h0) "cert"] =>
      assert (Hg : get (assign "cert" f h0) "cert" = f h0)
        by (unfold get, get_d, assign; by rewrite lookup_insert_eq);
      rewrite Hg
  end.
  unfold assign. cbn beta. cbn [py_str].
  rewrite (get_d_frame "Stroke Certification");
    [|cbn [firstn enrich_steps]; solve_frames].
  set (h15 := run_steps (firstn 15 enrich_steps) h).
  destruct (assoc_mem CERT_COLORS _); cbv iota beta; apply lookup_insert_eq.
Qed.

(** C5: the normalised certification is always one of the keys of
    [CERT_COLORS] ("CSC", "PSC", "TSC", "TCC", "None" and the empty string,
    which the source lists as "No Certification"); a raw value whose
    stripped [str] is not one of them becomes "None" (the certification
    statements never raise); a raw "Foo" gives "None", which scores the
    [cert_none] weight 5; a raw "CSC" followed by a no-break space
    (U+00A0, the bytes C2 A0) is stripped to "CSC" and kept. *)
Theorem cert_normalised (h : pydict) :
  (exists c, enrich_hospital h !! "cert" = Some (VStr c) /\
             In c (map fst CERT_COLORS) /\
             (~ In (strip (py_str (get_d h "Stroke Certification" (VStr "None"))))
                   (map fst CERT_COLORS) -> c = "None")) /\
  (get h "Stroke Certification" = VStr "Foo" ->
   enrich_hospital h !! "cert" = Some (VStr "None") /\
   forall v, enrich_hospital h !! "cert" = Some v -> cert_points v = 5%Z) /\
  (get h "Stroke Certification" =
     VStr ("CSC" ++ String (ascii_of_nat 194) (String (ascii_of_nat 160) EmptyString)) ->
   enrich_hospital h !! "cert" = Some (VStr "CSC")).
Proof.
  pose proof (enrich_cert h) as Hc. cbv zeta in Hc.
  split; [|split].
  - eexists; split; [exact Hc|].
    destruct (assoc_mem CERT_COLORS _) eqn:E.
    + split; [by apply assoc_mem_In|]. intros Hn. exfalso. apply Hn.
      by apply assoc_mem_In.
    + split; [simpl; tauto | done].
  - intros Hfoo.
    assert (get_d h "Stroke Certification" (VStr "None") = VStr "Foo") as Hd.
    { unfold get, get_d in *. destruct (h !! "Stroke Certification"); congruence. }
    rewrite Hd in Hc.
    change (strip (py_str (VStr "Foo"))) with "Foo" in Hc.
    replace (assoc_mem CERT_COLORS "Foo") with false in Hc by reflexivity.
    cbv iota in Hc. split; [exact Hc|].
    intros v Hv. rewrite Hc in Hv. injection Hv as <-. reflexivity.
  - intros Hnb.
    assert (get_d h "Stroke Certification" (VStr "None") =
            VStr ("CSC" ++ String (ascii_of_nat 194)
                             (String (ascii_of_nat 160) EmptyString))) as Hd.
    { unfold get, get_d in *. destruct (h !! "Stroke Certification"); congruence. }
    rewrite Hd in Hc.
    replace (strip (py_str (VStr ("CSC" ++ String (ascii_of_nat 194)
                                      (String (ascii_of_nat 160) EmptyString)))))
      with "CSC" in Hc by reflexivity.
    replace (assoc_mem CERT_COLORS "CSC") with true in Hc by reflexivity.
    exact Hc.
Qed.

(* ------------------------------------------------------------------ *)
(** ** Monotonicity of the epidemiology estimates *)

Lemma Int_part_mono (x y : R) : (x <= y)%R -> (Int_part x <= Int_part y)%Z.
Proof.
  intros Hxy. pose proof (Int_part_bounds x). pose proof (Int_part_bounds y).
  assert (Int_part x < Int_part y + 1)%Z; [|lia].
  apply lt_IZR. rewrite plus_IZR. lra.
Qed.

Lemma py_round_pos (x : R) : (0 < py_round x)%Z -> (0 < x)%R.
Proof.
  intros H. destruct (Rlt_le_dec 0 x) as [|Hx]; [done|].
  apply py_round_mono in Hx. rewrite py_round_IZR in Hx. lia.
Qed.

Lemma py_round_nonneg (x : R) : (0 <= x)%R -> (0 <= py_round x)%Z.
Proof. intros Hx. apply py_round_mono in Hx. by rewrite py_round_IZR in Hx. Qed.

(** [pop_65] after the 17% fallback. *)
Lemma imputed_bounds (T : Z) :
  (0 < T)%Z ->
  (0 <= py_trunc (IZR T * default_65_plus_pct) <= T)%Z.
Proof.
  intros HT. assert (0 < IZR T)%R by (apply IZR_lt; lia).
  unfold py_trunc, default_65_plus_pct.
  destruct (Rle_dec 0 _) as [H0|H0]; [|lra].
  pose proof (Int_part_bounds (IZR T * (17 / 100))) as [B1 B2]. split.
  - assert (-1 < Int_part (IZR T * (17 / 100)))%Z; [|lia].
    apply lt_IZR. lra.
  - apply le_IZR. lra.
Qed.

(** The effective population of the source, as a function of the two
    coerced cells. *)
Lemma effective_pop_mono (T P T' P' : Z) :
  let P1 := if (0 <? T)%Z && (P =? 0)%Z
            then py_trunc (IZR T * default_65_plus_pct) else P in
  let P1' := if (0 <? T')%Z && (P' =? 0)%Z
             then py_trunc (IZR T' * default_65_plus_pct) else P' in
  let E := if (0 <? T)%Z
           then py_round (IZR (Z.max 0 (T - P1)) + IZR P1 * age_65_multiplier)%R
           else 0%Z in
  let E' := if (0 <? T')%Z
            then py_round (IZR (Z.max 0 (T' - P1')) + IZR P1' * age_65_multiplier)%R
            else 0%Z in
  (T <= T')%Z -> (P * T' = P' * T)%Z -> (0 < E)%Z -> (E <= E')%Z.
Proof.
  intros P1 P1' E E' HT HP HE.
  unfold E, E' in *. unfold P1, P1' in *. clear E E' P1 P1'.
  destruct (Z.ltb_spec 0 T) as [HT0|HT0]; [|lia].
  assert (HT0' : (0 < T')%Z) by lia.
  destruct (Z.ltb_spec 0 T') as [_|?]; [|lia].
  apply py_round_mono.
  apply py_round_pos in HE.
  assert (IT : (0 < IZR T)%R) by (apply IZR_lt; lia).
  assert (IT' : (IZR T <= IZR T')%R) by (apply IZR_le; lia).
  cbn [andb] in *.
  destruct (Z.eqb_spec P 0) as [HP0|HP0].
  - assert (P' = 0)%Z by nia. subst P P'. cbn [Z.eqb] in *.
    pose proof (imputed_bounds T HT0). pose proof (imputed_bounds T' HT0').
    assert (py_trunc (IZR T * default_65_plus_pct) <=
            py_trunc (IZR T' * default_65_plus_pct))%Z.
    { unfold py_trunc, default_65_plus_pct.
      destruct (Rle_dec 0 (IZR T * (17 / 100))); [|lra].
      destruct (Rle_dec 0 (IZR T' * (17 / 100))); [|lra].
      apply Int_part_mono. nra. }
    rewrite !Z.max_r by lia. rewrite !minus_IZR.
    set (a := py_trunc (IZR T * default_65_plus_pct)) in *.
    set (b := py_trunc (IZR T' * default_65_plus_pct)) in *.
    assert (IZR a <= IZR b)%R by (apply IZR_le; lia).
    unfold age_65_multiplier. lra.
  - assert (HP0' : P' <> 0%Z) by nia.
    rewrite (proj2 (Z.eqb_neq P' 0) HP0').
    assert (HU : (T * Z.max 0 (T' - P') = T' * Z.max 0 (T - P))%Z).
    { destruct (Z.le_gt_cases P T).
      - rewrite (Z.max_r 0 (T - P)) by lia. rewrite Z.max_r by nia. nia.
      - rewrite (Z.max_l 0 (T - P)) by lia. rewrite Z.max_l by nia. lia. }
    apply (f_equal IZR) in HU, HP. rewrite !mult_IZR in HU, HP.
    set (u := IZR (Z.max 0 (T - P))) in *.
    set (u' := IZR (Z.max 0 (T' - P'))) in *.
    unfold age_65_multiplier in *.
    assert (IZR T * (u' + IZR P' * (5 / 2)) = IZR T' * (u + IZR P * (5 / 2)))%R
      by nra.
    nra.
Qed.

(** [round(ep * rate / 100000)] grows with [ep] and is never negative. *)
Lemma volume_mono (rate E E' : Z) :
  (0 <= rate)%Z -> (E <= E')%Z ->
  ((0 <? E)%Z = true -> (0 <? E')%Z = true) ->
  ((if (0 <? E)%Z then py_round (IZR (E * rate) / 100000)%R else 0%Z) <=
   (if (0 <? E')%Z then py_round (IZR (E' * rate) / 100000)%R else 0%Z))%Z.
Proof.
  intros Hr HE Hpos. destruct (0 <? E)%Z eqn:H1.
  - rewrite Hpos by done. apply Z.ltb_lt in H1. apply py_round_mono.
    apply Rmult_le_compat_r; [lra|]. apply IZR_le. nia.
  - destruct (0 <? E')%Z eqn:H2; [|lia]. apply Z.ltb_lt in H2.
    apply py_round_nonneg. apply Rmult_le_pos; [|lra]. apply IZR_le. nia.
Qed.

(** ** C8: volumes grow with the catchment population *)

(** C8: for two records whose coerced catchment populations satisfy
    [T <= T'] and whose 65+ shares are equal ([P / T = P' / T'], written
    [P * T' = P' * T]), the ischemic and hemorrhagic volumes of the second
    are at least those of the first. *)
Theorem volumes_monotone_in_population (h h' : pydict)
  (Hpop : (safe_int (get h "Catchment Population") 0 <=
           safe_int (get h' "Catchment Population") 0)%Z)
  (Hshare : (safe_int (get h "Population 65+") 0 *
             safe_int (get h' "Catchment Population") 0 =
             safe_int (get h' "Population 65+") 0 *
             safe_int (get h "Catchment Population") 0)%Z) :
  exists i j i' j',
    enrich_hospital h !! "ischemic_volume" = Some (VInt i) /\
    enrich_hospital h !! "hemorrhagic_volume" = Some (VInt j) /\
    enrich_hospital h' !! "ischemic_volume" = Some (VInt i') /\
    enrich_hospital h' !! "hemorrhagic_volume" = Some (VInt j') /\
    (i <= i')%Z /\ (j <= j')%Z.
Proof.
  destruct (enrich_epidemiology h) as (_ & _ & Hi & Hj).
  destruct (enrich_epidemiology h') as (_ & _ & Hi' & Hj').
  pose proof (effective_pop_mono
                (safe_int (get h "Catchment Population") 0)
                (safe_int (get h "Population 65+") 0)
                (safe_int (get h' "Catchment Population") 0)
                (safe_int (get h' "Population 65+") 0) Hpop Hshare) as HE.
  cbv zeta in Hi, Hj, Hi', Hj', HE.
  do 4 eexists. split; [exact Hi|]. split; [exact Hj|].
  split; [exact Hi'|]. split; [exact Hj'|].
  match type of HE with (0 < ?E)%Z -> (?E <= ?E')%Z =>
    generalize E E' HE end.
  clear. intros e e' HE.
  destruct (Z.lt_ge_cases 0 e) as [Hp|Hp].
  - specialize (HE Hp).
    assert (Hp' : (0 <? e')%Z = true) by (apply Z.ltb_lt; lia).
    unfold ischemic_per_100k, hemorrhagic_per_100k.
    split; apply volume_mono; intros; try lia; done.
  - assert (Hz : (0 <? e)%Z = false) by (apply Z.ltb_ge; lia).
    rewrite Hz.
    split; destruct (0 <? e')%Z eqn:Hq; try lia; apply Z.ltb_lt in Hq;
      apply py_round_nonneg;
      [unfold ischemic_per_100k | unfold hemorrhagic_per_100k];
      apply Rmult_le_pos; try lra; apply IZR_le; lia.
Qed.

(* ------------------------------------------------------------------ *)
(** ** Which exceptions the scorer can raise *)

Lemma rbind_not_err {A B} (m : result A) (f : A -> result B) (e : pyexc) :
  m <> Err e -> (forall a, f a <> Err e) -> rbind m f <> Err e.
Proof.
  intros H1 H2. destruct m; cbn; [apply H2|].
  intros E. inversion E; subst. done.
Qed.

Lemma rmap_not_err {A B} (f : A -> result B) (l : list A) (e : pyexc) :
  (forall x, In x l -> f x <> Err e) -> rmap f l <> Err e.
Proof.
  induction l as [|x l IH]; intros Hf; cbn; [discriminate|].
  apply rbind_not_err; [apply Hf; left; done|]. intros y.
  apply rbind_not_err; [apply IH; intros; apply Hf; right; done|].
  discriminate.
Qed.

Lemma subscript_no_zde (h : pydict) (k : string) :
  subscript h k <> Err ZeroDivisionError.
Proof. unfold subscript. destruct (h !! k); discriminate. Qed.

Lemma num_field_no_zde (h : pydict) (k : string) :
  num_field h k <> Err ZeroDivisionError.
Proof.
  unfold num_field. apply rbind_not_err; [apply subscript_no_zde|].
  intros []; discriminate.
Qed.

Lemma flag_points_no_zde (h : pydict) (k : string) (w : Z) :
  flag_points h k w <> Err ZeroDivisionError.
Proof.
  unfold flag_points. apply rbind_not_err; [apply subscript_no_zde|].
  discriminate.
Qed.

Lemma max_or_one_nonzero (xs : list R) : max_or_one xs <> 0%R.
Proof.
  unfold max_or_one.
  destruct (reqb _ 0) eqn:E; [lra|]. apply reqb_false in E. exact E.
Qed.

Lemma infrastructure_score_no_zde (h : pydict) (m : R) :
  m <> 0%R -> infrastructure_score h m <> Err ZeroDivisionError.
Proof.
  intros Hm. unfold infrastructure_score.
  apply rbind_not_err; [apply subscript_no_zde|]. intros c.
  do 8 (apply rbind_not_err; [apply flag_points_no_zde|]; intros ?).
  apply rbind_not_err; [|discriminate].
  unfold volume_points. apply rbind_not_err; [apply num_field_no_zde|].
  intros s. unfold py_div. apply reqb_false in Hm. rewrite Hm. discriminate.
Qed.

(** ** C6: the volume share never divides by zero *)

(** C6: the denominator [max(..., default=1) or 1] is never zero, it is 1
    for the empty set and when the set-wide maximum is zero, and so
    [calculate_infrastructure_scores] never raises [ZeroDivisionError], on
    any record set (the empty one gives the empty result). *)
Theorem scorer_never_divides_by_zero :
  (forall xs, max_or_one xs <> 0%R) /\
  max_or_one [] = 1%R /\
  (forall x xs, fold_left Rmax xs x = 0%R -> max_or_one (x :: xs) = 1%R) /\
  calculate_infrastructure_scores [] = Ok [] /\
  (forall hospitals,
     calculate_infrastructure_scores hospitals <> Err ZeroDivisionError).
Proof.
  split; [exact max_or_one_nonzero|].
  split; [unfold max_or_one; destruct (reqb 1 0) eqn:E; done|].
  split.
  { intros x xs H. unfold max_or_one. cbn [fold_left]. rewrite H.
    destruct (reqb 0 0) eqn:E; [done|]. apply reqb_false in E. lra. }
  split; [done|].
  intros hs. unfold calculate_infrastructure_scores.
  apply rbind_not_err.
  - apply rmap_not_err. intros. apply num_field_no_zde.
  - intros strokes. apply rmap_not_err. intros h _.
    apply rbind_not_err; [|discriminate].
    apply infrastructure_score_no_zde, max_or_one_nonzero.
Qed.

(* ------------------------------------------------------------------ *)
(** ** Access categories and travel *)


(** On finite coordinates the loop of [calculate_travel] is [nearest]. *)
Lemma nearest_py_fin (x y : R) (team : list team_member) (c : string) :
  nearest_py (FFin x) (FFin y) team c = Ok (nearest x y team c).
Proof.
  unfold nearest_py, nearest.
  generalize (@None R, c) as acc.
  induction team as [|tl team IH]; intros acc; [reflexivity|].
  cbn [fold_left]. exact (IH _).
Qed.

Lemma assign_geographic_access_each (hs hs' : list pydict) :
  assign_geographic_access hs = Ok hs' ->
  Forall2 (fun h h' => exists t,
             py_num (get_d h "travel_time_min" (VInt 0)) = Ok t /\
             h' = <["geographic_access" := VStr (access_category t)]> h) hs hs'.
Proof.
  unfold assign_geographic_access. revert hs'.
  induction hs as [|h hs IH]; intros hs' E; cbn in E.
  - injection E as <-. constructor.
  - destruct (py_num (get_d h "travel_time_min" (VInt 0))) as [t|] eqn:Et;
      cbn in E; [|discriminate].
    destruct (rmap _ hs) as [ys|] eqn:Er; cbn in E; [|discriminate].
    injection E as <-. constructor; [exists t; done|]. apply IH. reflexivity.
Qed.

(** ** C7: access categories *)


(* ------------------------------------------------------------------ *)
(** ** The stable sort of [assign_clinical_tiers] *)

Lemma rmap_Forall2 {A B} (f : A -> result B) (l : list A) (ys : list B) :
  rmap f l = Ok ys -> Forall2 (fun x y => f x = Ok y) l ys.
Proof.
  revert ys. induction l as [|x l IH]; intros ys E; cbn in E.
  - injection E as <-. constructor.
  - destruct (f x) as [y|] eqn:Ef; cbn in E; [|discriminate].
    destruct (rmap f l) as [ys'|]; cbn in E; [|discriminate].
    injection E as <-. constructor; [done|]. by apply IH.
Qed.

Lemma rmap_lookup {A B} (f : A -> result B) (l : list A) (ys : list B)
  (j : nat) (x : A) (y : B) :
  rmap f l = Ok ys -> l !! j = Some x -> f x = Ok y -> ys !! j = Some y.
Proof.
  intros E Hx Hy. apply rmap_Forall2 in E.
  destruct (Forall2_lookup_l _ _ _ _ _ E Hx) as (y' & Hy' & Hf).
  rewrite Hy in Hf. injection Hf as ->. done.
Qed.

Lemma insert_desc_perm (x : nat * (R * R)) (l : list (nat * (R * R))) :
  Permutation (insert_desc x l) (x :: l).
Proof.
  induction l as [|y l IH]; cbn; [done|].
  destruct (key_lt y.2 x.2); [done|].
  rewrite IH. apply perm_swap.
Qed.

Lemma fold_insert_perm (xs acc : list (nat * (R * R))) :
  Permutation (fold_left (fun acc x => insert_desc x acc) xs acc) (app xs acc).
Proof.
  revert acc. induction xs as [|x xs IH]; intros acc; cbn; [done|].
  rewrite IH, insert_desc_perm. symmetry. apply Permutation_middle.
Qed.

Lemma key_lt_asym (a b : R * R) : key_lt a b = true -> key_lt b a = false.
Proof.
  unfold key_lt. intros H.
  destruct (reqb a.1 b.1) eqn:E1.
  - apply reqb_true in E1.
    assert (E2 : reqb b.1 a.1 = true) by (apply reqb_true; done).
    rewrite E2. apply rltb_true in H. apply rltb_false. lra.
  - apply reqb_false in E1.
    assert (E2 : reqb b.1 a.1 = false) by (apply reqb_false; congruence).
    rewrite E2. apply rltb_true in H. apply rltb_false. lra.
Qed.

Lemma insert_desc_sorted (x : nat * (R * R)) (l : list (nat * (R * R))) :
  Sorted not_below l -> Sorted not_below (insert_desc x l).
Proof.
  induction l as [|y l IH]; intros Hs; cbn.
  - repeat constructor.
  - destruct (key_lt y.2 x.2) eqn:E.
    + constructor; [done|]. constructor. unfold not_below.
      by apply key_lt_asym.
    + inversion Hs as [|? ? Hs' Hhd]; subst.
      constructor; [by apply IH|].
      destruct l as [|z l'']; cbn; [by constructor|].
      destruct (key_lt z.2 x.2); constructor; [done|].
      by inversion Hhd.
Qed.

Lemma fold_insert_sorted (xs acc : list (nat * (R * R))) :
  Sorted not_below acc ->
  Sorted not_below (fold_left (fun acc x => insert_desc x acc) xs acc).
Proof.
  revert acc. induction xs as [|x xs IH]; intros acc Hs; cbn; [done|].
  apply IH. by apply insert_desc_sorted.
Qed.

Lemma Sorted_lookup {A} (Rl : A -> A -> Prop) (l : list A) (k : nat) (a b : A) :
  Sorted Rl l -> l !! k = Some a -> l !! S k = Some b -> Rl a b.
Proof.
  revert k. induction l as [|x l IH]; intros k Hs Ha Hb; [done|].
  inversion Hs as [|? ? Hs' Hhd]; subst.
  destruct k as [|k]; cbn in Ha, Hb.
  - injection Ha as <-. destruct l as [|y l]; [done|].
    cbn in Hb. injection Hb as <-. by inversion Hhd.
  - by apply (IH k).
Qed.

Lemma combine_seq_In (s : nat) (keys : list (R * R)) (j : nat) (kk : R * R) :
  In (j, kk) (combine (seq s (length keys)) keys) ->
  s <= j /\ keys !! (j - s) = Some kk.
Proof.
  revert s. induction keys as [|k0 keys IH]; intros s H; cbn in H; [done|].
  destruct H as [H|H].
  - injection H as <- <-. split; [lia|]. by rewrite Nat.sub_diag.
  - destruct (IH (S s) H) as [H1 H2]. split; [lia|].
    replace (j - s) with (S (j - S s)) by lia. done.
Qed.

Lemma map_fst_combine_seq (s : nat) (keys : list (R * R)) :
  map fst (combine (seq s (length keys)) keys) = seq s (length keys).
Proof.
  revert s. induction keys as [|k0 keys IH]; intros s; cbn; [done|].
  by rewrite IH.
Qed.

(** The records in sorted order, with their keys. *)
Lemma sort_desc_pairs (keys : list (R * R)) :
  sort_desc keys =
  map fst (fold_left (fun acc x => insert_desc x acc)
                     (combine (seq 0 (length keys)) keys) []).
Proof. reflexivity. Qed.

Lemma sort_desc_perm (keys : list (R * R)) :
  Permutation (sort_desc keys) (seq 0 (length keys)).
Proof.
  rewrite sort_desc_pairs, fold_insert_perm, app_nil_r.
  by rewrite map_fst_combine_seq.
Qed.

(** Neighbours in the sorted order have non-increasing keys. *)
Lemma sort_desc_sorted (keys : list (R * R)) (k j j' : nat) (a b : R * R) :
  sort_desc keys !! k = Some j -> sort_desc keys !! S k = Some j' ->
  keys !! j = Some a -> keys !! j' = Some b -> key_lt a b = false.
Proof.
  rewrite sort_desc_pairs.
  set (ps := fold_left _ _ []).
  assert (Hs : Sorted not_below ps) by (apply fold_insert_sorted; constructor).
  assert (Hin : forall j kk, In (j, kk) ps -> keys !! j = Some kk).
  { intros j0 kk Hj. eapply Permutation_in in Hj; [|apply fold_insert_perm].
    rewrite app_nil_r in Hj. apply combine_seq_In in Hj as [_ Hj].
    by rewrite Nat.sub_0_r in Hj. }
  change (map fst ps) with (fst <$> ps).
  rewrite !list_lookup_fmap.
  intros Hk Hk' Ha Hb.
  destruct (ps !! k) as [[j0 a0]|] eqn:E1; [|done].
  destruct (ps !! S k) as [[j1 b0]|] eqn:E2; [|done].
  cbn in Hk, Hk'. injection Hk as <-. injection Hk' as <-.
  rewrite (Hin j0 a0) in Ha by (eapply list_elem_of_In, list_elem_of_lookup_2; done).
  rewrite (Hin j1 b0) in Hb by (eapply list_elem_of_In, list_elem_of_lookup_2; done).
  injection Ha as <-. injection Hb as <-.
  exact (Sorted_lookup _ _ _ _ _ Hs E1 E2).
Qed.

(* ------------------------------------------------------------------ *)
(** ** Writing the tiers *)

Lemma write_tiers_length (n i : nat) (order : list nat) (hs : list pydict) :
  length (write_tiers n i order hs) = length hs.
Proof.
  revert i hs. induction order as [|j order IH]; intros i hs; cbn; [done|].
  rewrite IH. destruct (hs !! j); [by rewrite length_insert|done].
Qed.

Lemma write_tiers_frame (n i : nat) (order : list nat) (hs : list pydict) (j : nat) :
  ~ In j order -> write_tiers n i order hs !! j = hs !! j.
Proof.
  revert i hs. induction order as [|j0 order IH]; intros i hs Hj; cbn; [done|].
  apply not_in_cons in Hj as [Hne Hj]. rewrite IH by done.
  destruct (hs !! j0); [|done]. by rewrite list_lookup_insert_ne.
Qed.

(** The record at position [k] of [order] gets the tier of position
    [i + k]. *)
Lemma write_tiers_lookup (n i : nat) (order : list nat) (hs : list pydict)
  (k j : nat) :
  NoDup order -> order !! k = Some j ->
  write_tiers n i order hs !! j = set_tier (tier_of n (i + k)) <$> hs !! j.
Proof.
  revert i hs k. induction order as [|j0 order IH]; intros i hs k Hnd Hk;
    [done|].
  inversion Hnd as [|? ? Hnin Hnd']; subst. cbn.
  destruct k as [|k]; cbn in Hk.
  - injection Hk as <-. rewrite write_tiers_frame by (intros H; apply Hnin;
      by apply list_elem_of_In).
    rewrite Nat.add_0_r.
    destruct (hs !! j0) as [h|] eqn:E; cbn; [|by rewrite E].
    rewrite list_lookup_insert_eq; [done|]. by apply lookup_lt_is_Some_1.
  - assert (Hne : j <> j0).
    { intros ->. apply Hnin. by eapply list_elem_of_lookup_2. }
    rewrite (IH (S i) _ k) by done. replace (S i + k) with (i + S k) by lia.
    destruct (hs !! j0); [|done]. by rewrite list_lookup_insert_ne.
Qed.

(** Two records whose scores differ: the higher one is first. *)
Lemma assign_two_records (A B : pydict) (a1 a2 b1 b2 : R) :
  tier_key A = Ok (a1, a2) -> tier_key B = Ok (b1, b2) -> (b1 < a1)%R ->
  assign_clinical_tiers [A; B] = Ok [set_tier 1 A; set_tier 2 B].
Proof.
  intros HA HB Hlt. unfold assign_clinical_tiers. cbn [rmap].
  rewrite HA, HB. cbn [rbind].
  assert (E : key_lt (a1, a2) (b1, b2) = false).
  { unfold key_lt. cbn.
    assert (reqb a1 b1 = false) as -> by (apply reqb_false; lra).
    apply rltb_false. lra. }
  unfold sort_desc. cbn [length seq combine fold_left insert_desc snd].
  rewrite E. reflexivity.
Qed.

(** The same two records given the other way round: the sort puts the
    higher one first, and the tiers are written back at the records' own
    positions. *)
Lemma assign_two_records_rev (A B : pydict) (a1 a2 b1 b2 : R) :
  tier_key A = Ok (a1, a2) -> tier_key B = Ok (b1, b2) -> (b1 < a1)%R ->
  assign_clinical_tiers [B; A] = Ok [set_tier 2 B; set_tier 1 A].
Proof.
  intros HA HB Hlt. unfold assign_clinical_tiers. cbn [rmap].
  rewrite HA, HB. cbn [rbind].
  assert (E : key_lt (b1, b2) (a1, a2) = true).
  { unfold key_lt. cbn.
    assert (reqb b1 a1 = false) as -> by (apply reqb_false; lra).
    apply rltb_true. lra. }
  unfold sort_desc. cbn [length seq combine fold_left insert_desc snd].
  rewrite E. reflexivity.
Qed.

(** ** C2: tiers by position in the sorted order *)

(** C2 (as the code computes it): with [n] records and their sort keys
    [(infrastructure_score, strokes_yr)], the order used is a permutation
    of the record indices sorted by non-increasing key; every record gets
    exactly one position, and the record at position [i] receives tier 1
    when [i < max(1, n // 3)], tier 2 when
    [max(1, n // 3) <= i < max(2, 2 * n // 3)] and tier 3 otherwise, the
    bounds being floor divisions. *)
Theorem tiers_by_floor_thirds (hs : list pydict) (keys : list (R * R))
  (Hk : rmap tier_key hs = Ok keys) :
  let n := length hs in
  let order := sort_desc keys in
  Permutation order (seq 0 n) /\
  (forall k j j' h h' a b,
     order !! k = Some j -> order !! S k = Some j' ->
     hs !! j = Some h -> hs !! j' = Some h' ->
     tier_key h = Ok a -> tier_key h' = Ok b -> key_lt a b = false) /\
  exists hs',
    assign_clinical_tiers hs = Ok hs' /\ length hs' = n /\
    (forall j, j < n -> exists i, order !! i = Some j /\
                         forall i', order !! i' = Some j -> i' = i) /\
    (forall i j h, order !! i = Some j -> hs !! j = Some h ->
       exists t, hs' !! j = Some (set_tier t h) /\
         (i < Nat.max 1 (n / 3) -> t = 1%Z) /\
         (Nat.max 1 (n / 3) <= i < Nat.max 2 (2 * n / 3) -> t = 2%Z) /\
         (Nat.max 2 (2 * n / 3) <= i -> t = 3%Z)).
Proof.
  cbv zeta.
  assert (Hlen : length keys = length hs).
  { symmetry. eapply Forall2_length, rmap_Forall2, Hk. }
  assert (Hperm : Permutation (sort_desc keys) (seq 0 (length hs))).
  { rewrite <- Hlen. apply sort_desc_perm. }
  assert (Hnd : NoDup (sort_desc keys)).
  { apply NoDup_ListNoDup. eapply Permutation_NoDup; [symmetry; exact Hperm|].
    apply NoDup_ListNoDup, NoDup_seq. }
  split; [exact Hperm|]. split.
  { intros k j j' h h' a b Hj Hj' Hh Hh' Ha Hb.
    eapply sort_desc_sorted; [exact Hj | exact Hj' | |].
    - eapply rmap_lookup; [exact Hk | exact Hh | exact Ha].
    - eapply rmap_lookup; [exact Hk | exact Hh' | exact Hb]. }
  eexists. split.
  { unfold assign_clinical_tiers. rewrite Hk. reflexivity. }
  split; [apply write_tiers_length|]. split.
  - intros j Hj.
    assert (Hin : In j (sort_desc keys)).
    { eapply Permutation_in; [symmetry; exact Hperm|]. apply in_seq. lia. }
    apply list_elem_of_In, list_elem_of_lookup_1 in Hin as [i Hi].
    exists i. split; [exact Hi|]. intros i' Hi'.
    eapply NoDup_lookup; [exact Hnd | exact Hi' | exact Hi].
  - intros i j h Hi Hh. exists (tier_of (length hs) i).
    split; [by rewrite (write_tiers_lookup _ 0 _ _ i j Hnd Hi), Hh|].
    unfold tier_of.
    assert (length hs / 3 <= 2 * length hs / 3) by (apply Nat.Div0.div_le_mono; lia).
    set (t1 := Nat.max 1 (length hs / 3)). set (t2 := Nat.max 2 (2 * length hs / 3)).
    repeat split; intros;
      repeat match goal with
      | |- context [Nat.ltb ?a ?b] => destruct (Nat.ltb_spec a b)
      end; lia.
Qed.

(** ** C3: two records *)

(** C3 (as the code computes it): of two records, in either order in the
    list, the one with composite score 90 gets tier 1 and the one with
    score 10 gets tier 2 (for [n = 2]: [t1 = max(1, 0) = 1],
    [t2 = max(2, 1) = 2]); each record keeps its position in the list. *)
Theorem two_records_tiers (A B : pydict) (sa sb : R)
  (HA : A !! "infrastructure_score" = Some (VInt 90))
  (HB : B !! "infrastructure_score" = Some (VInt 10))
  (HsA : num_field A "strokes_yr" = Ok sa)
  (HsB : num_field B "strokes_yr" = Ok sb) :
  exists A' B',
    assign_clinical_tiers [A; B] = Ok [A'; B'] /\
    assign_clinical_tiers [B; A] = Ok [B'; A'] /\
    A' !! "clinical_tier" = Some (VInt 1) /\
    A' !! "clinical_tier_label" = Some (VStr "High Complexity Hub") /\
    B' !! "clinical_tier" = Some (VInt 2) /\
    B' !! "clinical_tier_label" = Some (VStr "Regional Center").
Proof.
  assert (KA : tier_key A = Ok (IZR 90, sa)).
  { unfold tier_key. rewrite HsA. unfold num_field, subscript.
    rewrite HA. reflexivity. }
  assert (KB : tier_key B = Ok (IZR 10, sb)).
  { unfold tier_key. rewrite HsB. unfold num_field, subscript.
    rewrite HB. reflexivity. }
  assert (Hlt : (IZR 10 < IZR 90)%R) by (apply IZR_lt; lia).
  exists (set_tier 1 A), (set_tier 2 B). split; [|split].
  - exact (assign_two_records A B _ _ _ _ KA KB Hlt).
  - exact (assign_two_records_rev A B _ _ _ _ KA KB Hlt).
  - unfold set_tier. repeat split; simplify_map_eq; done.
Qed.

(* ------------------------------------------------------------------ *)
(** ** Bounds of the infrastructure score *)

Lemma rbind_ok {A B} (m : result A) (f : A -> result B) (b : B) :
  rbind m f = Ok b -> exists a, m = Ok a /\ f a = Ok b.
Proof. destruct m as [a|e]; cbn; [eauto | discriminate]. Qed.

Lemma cert_points_bounds (c : pyval) : (5 <= cert_points c <= 25)%Z.
Proof.
  unfold cert_points. destruct c; cbn; try (unfold W_cert_none; lia).
  repeat match goal with |- context [String.eqb ?a ?b] => destruct (String.eqb a b) end;
    unfold W_cert_csc, W_cert_psc, W_cert_tsc, W_cert_none; lia.
Qed.

Lemma flag_points_cases (h : pydict) (k : string) (w p : Z) :
  flag_points h k w = Ok p -> p = 0%Z \/ p = w.
Proof.
  unfold flag_points. intros E. apply rbind_ok in E as (v & _ & E).
  injection E as <-. destruct (py_truthy v); auto.
Qed.

Lemma volume_points_upper (h : pydict) (m : R) (p : Z) :
  volume_points h m = Ok p -> (p <= 10)%Z.
Proof.
  unfold volume_points. intros E.
  apply rbind_ok in E as (s & _ & E). apply rbind_ok in E as (q & _ & E).
  injection E as <-. unfold W_stroke_volume_max. lia.
Qed.

Lemma volume_points_lower (h : pydict) (m s : R) (p : Z) :
  num_field h "strokes_yr" = Ok s -> (0 <= s)%R -> (0 < m)%R ->
  volume_points h m = Ok p -> (0 <= p)%Z.
Proof.
  unfold volume_points. intros Hs Hs0 Hm E. rewrite Hs in E. cbn in E.
  unfold py_div in E.
  assert (reqb m 0 = false) as Hr by (apply reqb_false; lra).
  rewrite Hr in E. cbn in E. injection E as <-.
  apply Z.min_glb; [unfold W_stroke_volume_max; lia|].
  apply py_round_nonneg. unfold W_stroke_volume_max.
  apply Rmult_le_pos; [|apply IZR_le; lia].
  unfold Rdiv. apply Rmult_le_pos; [lra|]. left. apply Rinv_0_lt_compat. lra.
Qed.

(** The uncapped score is at most 25 + 15 + 12 + 10 + 8 + 8 + 5 + 7 + 8 + 10
    = 108, and at least 5 when the volume part is not negative. *)
Lemma infrastructure_score_range (h : pydict) (m : R) (z : Z) :
  infrastructure_score h m = Ok z ->
  (z <= 108)%Z /\
  (forall s, num_field h "strokes_yr" = Ok s -> (0 <= s)%R -> (0 < m)%R ->
   (0 <= z)%Z).
Proof.
  unfold infrastructure_score. intros E.
  apply rbind_ok in E as (c & _ & E).
  apply rbind_ok in E as (p1 & H1 & E). apply rbind_ok in E as (p2 & H2 & E).
  apply rbind_ok in E as (p3 & H3 & E). apply rbind_ok in E as (p4 & H4 & E).
  apply rbind_ok in E as (p5 & H5 & E). apply rbind_ok in E as (p6 & H6 & E).
  apply rbind_ok in E as (p7 & H7 & E). apply rbind_ok in E as (p8 & H8 & E).
  apply rbind_ok in E as (pv & Hv & E). injection E as <-.
  apply flag_points_cases in H1, H2, H3, H4, H5, H6, H7, H8.
  pose proof (cert_points_bounds c).
  pose proof (volume_points_upper _ _ _ Hv).
  unfold W_thrombectomy_24_7, W_neuro_icu, W_cah, W_ct_scanner, W_telestroke,
    W_tpa, W_nsg_fellowship, W_nir_fellowship in *.
  split; [lia|].
  intros s Hs Hs0 Hm. pose proof (volume_points_lower _ _ _ _ Hs Hs0 Hm Hv). lia.
Qed.

Lemma fold_Rmax_ge (xs : list R) (x : R) : (x <= fold_left Rmax xs x)%R.
Proof.
  revert x. induction xs as [|y xs IH]; intros x; cbn; [lra|].
  eapply Rle_trans; [apply Rmax_l | apply IH].
Qed.

Lemma max_or_one_pos (xs : list R) :
  Forall (fun x => 0 <= x)%R xs -> (0 < max_or_one xs)%R.
Proof.
  intros Hx. unfold max_or_one.
  destruct xs as [|x xs]; [destruct (reqb 1 0); lra|].
  inversion Hx; subst. pose proof (fold_Rmax_ge xs x).
  destruct (reqb _ 0) eqn:E; [lra|]. apply reqb_false in E. lra.
Qed.

Lemma Forall2_In_l_ex {A B} (P : A -> B -> Prop) (l : list A) (l' : list B) (x : A) :
  Forall2 P l l' -> In x l -> exists y, P x y.
Proof.
  induction 1 as [|a b l l' Hab _ IH]; intros Hin; [done|].
  destruct Hin as [<-|Hin]; eauto.
Qed.

Lemma Forall2_Forall_and {A B} (P : A -> Prop) (Q : A -> B -> Prop)
  (l : list A) (l' : list B) :
  Forall P l -> Forall2 Q l l' -> Forall2 (fun x y => P x /\ Q x y) l l'.
Proof.
  intros HP HQ. induction HQ as [|a b l l' Hab _ IH]; constructor.
  - inversion HP; subst. auto.
  - inversion HP; subst. auto.
Qed.

(** ** C1: the infrastructure score *)

(** C1 (as the code computes it): [calculate_infrastructure_scores] stores
    in each record [min(round(score), 100)], which is never above 100
    whatever the flags, certification and volume (the uncapped sum reaches
    108); it is at least 0 when every record's [strokes_yr] is at least 0.
    There is no lower clamp: a negative [strokes_yr] gives a negative
    volume part, which can make the score negative. *)
Theorem infrastructure_score_clamped (hs hs' : list pydict)
  (E : calculate_infrastructure_scores hs = Ok hs') :
  Forall2 (fun h h' => exists z,
             h' = <["infrastructure_score" := VInt z]> h /\ (z <= 100)%Z) hs hs' /\
  ((forall h s, In h hs -> num_field h "strokes_yr" = Ok s -> (0 <= s)%R) ->
   Forall2 (fun h h' => exists z,
              h' = <["infrastructure_score" := VInt z]> h /\ (0 <= z <= 100)%Z)
           hs hs').
Proof.
  unfold calculate_infrastructure_scores in E.
  apply rbind_ok in E as (strokes & Es & E).
  apply rmap_Forall2 in Es, E.
  split.
  - eapply Forall2_impl; [exact E|]. intros h h' Hh.
    apply rbind_ok in Hh as (z & Hz & Hh). injection Hh as <-.
    exists (Z.min z 100). split; [done|lia].
  - intros Hnn.
    assert (Hpos : Forall (fun x => 0 <= x)%R strokes).
    { clear E. revert Hnn. induction Es as [|h s hs0 ss Hs _ IH]; intros Hnn;
        constructor.
      - apply (Hnn h); [left; done | exact Hs].
      - apply IH. intros h0 s0 Hin. apply Hnn. right; done. }
    pose proof (max_or_one_pos _ Hpos) as Hm.
    assert (Hs : Forall (fun h => exists s, num_field h "strokes_yr" = Ok s /\
                                            (0 <= s)%R) hs).
    { apply Forall_forall. intros h Hin. apply list_elem_of_In in Hin.
      destruct (Forall2_In_l_ex _ _ _ _ Es Hin) as [s Hs].
      exists s. split; [exact Hs|]. exact (Hnn h s Hin Hs). }
    eapply Forall2_impl; [exact (Forall2_Forall_and _ _ _ _ Hs E)|].
    intros h h' ((s & Hs1 & Hs2) & Hh).
    apply rbind_ok in Hh as (z & Hz & Hh). injection Hh as <-.
    apply infrastructure_score_range in Hz as [Hz1 Hz2].
    specialize (Hz2 s Hs1 Hs2 Hm).
    exists (Z.min z 100). split; [done|lia].
Qed.

(* ------------------------------------------------------------------ *)
(** ** The fields the later stages read, after [enrich_hospital] *)

Lemma enrich_strokes_yr (h : pydict) :
  enrich_hospital h !! "strokes_yr" =
  Some (VInt (safe_int (get h "Strokes Per Year") 0)).
Proof. enrich_at 13. rewrite assign_lookup. by raw_read 13 "Strokes Per Year". Qed.

Lemma enrich_lat (h : pydict) :
  enrich_hospital h !! "lat" = Some (of_pyfloat (safe_float (get h "Latitude") 0)).
Proof. enrich_at 8. rewrite assign_lookup. by raw_read 8 "Latitude". Qed.

Lemma enrich_lng (h : pydict) :
  enrich_hospital h !! "lng" = Some (of_pyfloat (safe_float (get h "Longitude") 0)).
Proof. enrich_at 9. rewrite assign_lookup. by raw_read 9 "Longitude". Qed.

(** The boolean flags are [safe_bool] of their cells (default [False]). *)
Lemma enrich_flags (h : pydict) :
  Forall (fun '(col, key) =>
            enrich_hospital h !! key = Some (VBool (safe_bool (get h col) false)))
         bool_flag_columns.
Proof.
  repeat constructor.
  - by flag_at 20 "Neurosurgery Fellowship".
  - by flag_at 21 "Neuro IR Fellowship".
  - by flag_at 26 "CAH Status".
  - by flag_at 27 "Telestroke Capable".
  - by flag_at 28 "24/7 Thrombectomy".
  - by flag_at 29 "tPA Available".
  - by flag_at 30 "Neuro ICU".
  - by flag_at 31 "CT Scanner".
  - by flag_at 32 "Spoke Hospital".
  - by flag_at 37 "Medevac Available".
Qed.

Lemma enrich_name (h : pydict) :
  enrich_hospital h !! "name" =
  Some (VStr (py_str (get_d h "Hospital Name" (VStr "")))).
Proof.
  enrich_at 0. rewrite assign_lookup. cbn [firstn run_steps fold_left]. done.
Qed.

Lemma num_field_lookup (h : pydict) (k : string) (v : pyval) :
  h !! k = Some v -> num_field h k = py_num v.
Proof. intros E. unfold num_field, subscript. by rewrite E. Qed.

Lemma enrich_scorable (h : pydict) : scorable (enrich_hospital h).
Proof.
  pose proof (enrich_flags h) as Hf. unfold bool_flag_columns in Hf.
  repeat match type of Hf with
         | Forall _ (_ :: _) => let H := fresh "Hf" in
                                apply Forall_cons in Hf as [H Hf]
         end.
  split; [eexists; apply enrich_cert|].
  split; [repeat constructor; eexists; eassumption|].
  eexists; rewrite (num_field_lookup _ _ _ (enrich_strokes_yr h)); done.
Qed.

(* ------------------------------------------------------------------ *)
(** ** The stages after [enrich_hospital]: success and the keys they store *)

Lemma only_sets_refl (ks : list string) (h : pydict) : only_sets ks h h.
Proof. intros k _. reflexivity. Qed.

Lemma only_sets_insert (ks : list string) (k : string) (v : pyval) (h : pydict) :
  In k ks -> only_sets ks h (<[k := v]> h).
Proof.
  intros Hk k' Hk'. apply lookup_insert_ne. intros ->. contradiction.
Qed.

Lemma only_sets_trans (ks : list string) (h1 h2 h3 : pydict) :
  only_sets ks h1 h2 -> only_sets ks h2 h3 -> only_sets ks h1 h3.
Proof. intros H12 H23 k Hk. rewrite H23 by done. by apply H12. Qed.

Lemma only_sets_mono (ks ks' : list string) (h h' : pydict) :
  incl ks ks' -> only_sets ks h h' -> only_sets ks' h h'.
Proof. intros Hi H k Hk. apply H. intros Hin. apply Hk, Hi, Hin. Qed.

Lemma num_ok_only_sets (ks : list string) (h h' : pydict) (k : string) :
  only_sets ks h h' -> ~ In k ks -> num_ok h k -> num_ok h' k.
Proof.
  intros H Hk [r Hr]. exists r. unfold num_field, subscript in *.
  by rewrite H.
Qed.

Lemma Forall2_refl_only_sets (ks : list string) (l : list pydict) :
  Forall2 (only_sets ks) l l.
Proof. induction l; constructor; [apply only_sets_refl | done]. Qed.

Lemma Forall2_only_sets_trans (ks : list string) (l1 l2 l3 : list pydict) :
  Forall2 (only_sets ks) l1 l2 -> Forall2 (only_sets ks) l2 l3 ->
  Forall2 (only_sets ks) l1 l3.
Proof.
  intros H12. revert l3.
  induction H12 as [|a b l1 l2 Hab _ IH]; intros l3 H23; [done|].
  inversion H23 as [|? c ? l3' Hbc H23']; subst.
  constructor; [by eapply only_sets_trans | by apply IH].
Qed.

Lemma Forall2_only_sets_mono (ks ks' : list string) (l l' : list pydict) :
  incl ks ks' -> Forall2 (only_sets ks) l l' -> Forall2 (only_sets ks') l l'.
Proof.
  intros Hi H. eapply Forall2_impl; [exact H|]. intros. by eapply only_sets_mono.
Qed.

Lemma Forall2_transfer {A B} (P : A -> Prop) (Q : B -> Prop) (Rl : A -> B -> Prop)
  (l : list A) (l' : list B) :
  (forall a b, P a -> Rl a b -> Q b) ->
  Forall P l -> Forall2 Rl l l' -> Forall Q l'.
Proof.
  intros HPQ HP HR. induction HR as [|a b l l' Hab _ IH]; constructor.
  - inversion HP; subst. eauto.
  - inversion HP; subst. auto.
Qed.

Lemma Forall2_map_l {A B} (f : A -> B) (Rl : B -> B -> Prop)
  (l : list A) (l' : list B) :
  Forall2 Rl (map f l) l' -> Forall2 (fun a b => Rl (f a) b) l l'.
Proof.
  revert l'. induction l as [|a l IH]; intros l' H; inversion H; subst;
    constructor; auto.
Qed.

Lemma rmap_ok {A B} (f : A -> result B) (l : list A) :
  (forall x, In x l -> exists y, f x = Ok y) ->
  exists ys, rmap f l = Ok ys /\ Forall2 (fun x y => f x = Ok y) l ys.
Proof.
  induction l as [|x l IH]; intros Hf; cbn; [eexists; split; constructor|].
  destruct (Hf x (or_introl eq_refl)) as [y Hy]. rewrite Hy. cbn.
  destruct IH as (ys & Hys & HF); [intros; apply Hf; by right|].
  rewrite Hys. cbn. eexists; split; [reflexivity|]. by constructor.
Qed.

Lemma Forall_In {A} (P : A -> Prop) (l : list A) (x : A) :
  Forall P l -> In x l -> P x.
Proof. intros H Hx. eapply Forall_forall; [exact H|]. by apply list_elem_of_In. Qed.

(** Scoring a record that has the fields it reads never raises. *)
Lemma infrastructure_score_ok (h : pydict) (m : R) :
  scorable h -> m <> 0%R -> exists z, infrastructure_score h m = Ok z.
Proof.
  intros ((c & Hc) & Hf & (s & Hs)) Hm. unfold score_flag_keys in Hf.
  repeat match type of Hf with
         | Forall _ (_ :: _) => let H := fresh "Hf" in
                                apply Forall_cons in Hf as [[? H] Hf]
         end.
  unfold infrastructure_score, flag_points, volume_points, subscript.
  rewrite Hc, Hs. repeat match goal with H : h !! _ = Some _ |- _ => rewrite H; clear H end.
  unfold py_div. apply reqb_false in Hm. rewrite Hm. cbn. eexists; reflexivity.
Qed.

Lemma calculate_infrastructure_scores_ok (hs : list pydict) :
  Forall scorable hs ->
  exists hs', calculate_infrastructure_scores hs = Ok hs' /\
    Forall2 (fun h h' => exists z, h' = <["infrastructure_score" := VInt z]> h)
            hs hs'.
Proof.
  intros Hs. unfold calculate_infrastructure_scores.
  destruct (rmap_ok (fun h => num_field h "strokes_yr") hs) as (strokes & Es & _).
  { intros h Hin. destruct (Forall_In _ _ _ Hs Hin) as (_ & _ & Hsy). exact Hsy. }
  rewrite Es. cbn [rbind].
  match goal with |- context [rmap ?f ?l] =>
    destruct (rmap_ok f l) as (hs' & E & HF); [|exists hs'; split; [exact E|]] end.
  - intros h Hin.
    destruct (infrastructure_score_ok h (max_or_one strokes)) as [z Hz];
      [exact (Forall_In _ _ _ Hs Hin) | apply max_or_one_nonzero|].
    rewrite Hz. cbn. eexists; reflexivity.
  - eapply Forall2_impl; [exact HF|]. intros h h' Hh.
    apply rbind_ok in Hh as (z & _ & Hh). injection Hh as <-. eexists; reflexivity.
Qed.

Lemma Forall2_insert_only_sets (ks : list string) (hs : list pydict) (j : nat)
  (h x : pydict) :
  hs !! j = Some h -> only_sets ks h x -> Forall2 (only_sets ks) hs (<[j := x]> hs).
Proof.
  revert j. induction hs as [|h0 hs IH]; intros j Hj Hx; [done|].
  destruct j as [|j]; cbn in Hj |- *.
  - injection Hj as ->. constructor; [done | apply Forall2_refl_only_sets].
  - constructor; [apply only_sets_refl | by apply IH].
Qed.

Lemma write_tiers_only_sets (n i : nat) (order : list nat) (hs : list pydict) :
  Forall2 (only_sets tier_keys_stored) hs (write_tiers n i order hs).
Proof.
  revert i hs. induction order as [|j order IH]; intros i hs; cbn;
    [apply Forall2_refl_only_sets|].
  eapply Forall2_only_sets_trans; [|apply IH].
  destruct (hs !! j) as [h|] eqn:Hj; [|apply Forall2_refl_only_sets].
  eapply Forall2_insert_only_sets; [exact Hj|].
  unfold set_tier. eapply only_sets_trans; apply only_sets_insert; cbn; auto.
Qed.

Lemma assign_clinical_tiers_ok (hs : list pydict) :
  Forall (fun h => num_ok h "infrastructure_score" /\ num_ok h "strokes_yr") hs ->
  exists hs', assign_clinical_tiers hs = Ok hs' /\
    Forall2 (only_sets tier_keys_stored) hs hs'.
Proof.
  intros Hs. unfold assign_clinical_tiers.
  destruct (rmap_ok tier_key hs) as (keys & Ek & _).
  { intros h Hin. destruct (Forall_In _ _ _ Hs Hin) as [[a Ha] [b Hb]].
    unfold tier_key. rewrite Ha, Hb. cbn. eexists; reflexivity. }
  rewrite Ek. cbn [rbind]. eexists; split; [reflexivity|].
  apply write_tiers_only_sets.
Qed.

Lemma nearest_some (lat lng : R) (team : list team_member) (closest : string) :
  team <> [] -> exists d c, nearest lat lng team closest = (Some d, c).
Proof.
  intros Ht. destruct team as [|tl team]; [done|]. unfold nearest.
  cbn [fold_left].
  match goal with
  | |- exists d c, fold_left ?f _ _ = _ =>
      assert (G : forall l d0 c0, exists d c, fold_left f l (Some d0, c0) = (Some d, c))
  end.
  { induction l as [|t l IHl]; intros d0 c0; cbn [fold_left]; [eauto|].
    cbn [fst]. destruct (lt_dist _ _); apply IHl. }
  apply G.
Qed.

(** One record of [calculate_travel]: it stores the three travel keys,
    [travel_time_min] being an int. *)
Lemma travel_one_sets (team : list team_member) (h h' : pydict) :
  travel_one team h = Ok h' ->
  only_sets travel_keys_stored h h' /\
  exists z, h' !! "travel_time_min" = Some (VInt z).
Proof.
  intros Hh. unfold travel_one in Hh. cbv zeta in Hh.
  apply rbind_ok in Hh as (la & _ & Hh). apply rbind_ok in Hh as (lo & _ & Hh).
  apply rbind_ok in Hh as ([[d|] c] & _ & Hh); [|discriminate].
  injection Hh as <-. split.
  - eapply only_sets_trans; [|apply only_sets_insert; cbn; auto].
    eapply only_sets_trans; apply only_sets_insert; cbn; auto.
  - eexists. rewrite lookup_insert_ne by done. apply lookup_insert_eq.
Qed.

Lemma calculate_travel_sets (hs hs' : list pydict) (cfg : config) :
  calculate_travel hs cfg = Ok hs' ->
  Forall2 (fun h h' => only_sets travel_keys_stored h h' /\
                       exists z, h' !! "travel_time_min" = Some (VInt z)) hs hs'.
Proof.
  unfold calculate_travel. intros E. apply rmap_Forall2 in E.
  eapply Forall2_impl; [exact E|]. intros h h'. apply travel_one_sets.
Qed.

(** Travel never raises on records whose coordinates are finite. *)
Lemma calculate_travel_ok (hs : list pydict) (cfg : config) :
  Forall coords_finite hs ->
  exists hs', calculate_travel hs cfg = Ok hs'.
Proof.
  intros Hs. unfold calculate_travel.
  destruct (rmap_ok (travel_one (team_of cfg)) hs) as (hs' & E & _);
    [|exists hs'; exact E].
  intros h Hin. destruct (Forall_In _ _ _ Hs Hin) as (x & y & Hx & Hy).
  unfold travel_one. cbv zeta. rewrite Hx. cbn [rbind]. rewrite Hy. cbn [rbind].
  rewrite nearest_py_fin. cbn [rbind].
  match goal with
  | |- context [nearest ?a ?b ?t ?c] =>
      destruct (nearest_some a b t c) as (d & c' & ->); [unfold team_of; done|]
  end.
  eexists; reflexivity.
Qed.

Lemma calculate_infrastructure_scores_sets (hs hs' : list pydict) :
  calculate_infrastructure_scores hs = Ok hs' ->
  Forall2 (only_sets ["infrastructure_score"]) hs hs'.
Proof.
  unfold calculate_infrastructure_scores. intros E.
  apply rbind_ok in E as (strokes & _ & E). apply rmap_Forall2 in E.
  eapply Forall2_impl; [exact E|]. intros h h' Hh.
  apply rbind_ok in Hh as (z & _ & Hh). injection Hh as <-.
  apply only_sets_insert. cbn; auto.
Qed.

Lemma assign_clinical_tiers_sets (hs hs' : list pydict) :
  assign_clinical_tiers hs = Ok hs' -> Forall2 (only_sets tier_keys_stored) hs hs'.
Proof.
  unfold assign_clinical_tiers. intros E.
  apply rbind_ok in E as (keys & _ & E). injection E as <-.
  apply write_tiers_only_sets.
Qed.

Lemma assign_geographic_access_sets (hs hs' : list pydict) :
  assign_geographic_access hs = Ok hs' ->
  Forall2 (only_sets ["geographic_access"]) hs hs'.
Proof.
  intros E. apply assign_geographic_access_each in E.
  eapply Forall2_impl; [exact E|]. intros h h' (t & _ & ->).
  apply only_sets_insert. cbn; auto.
Qed.

Lemma assign_geographic_access_ok (hs : list pydict) :
  Forall (fun h => exists z, h !! "travel_time_min" = Some (VInt z)) hs ->
  exists hs', assign_geographic_access hs = Ok hs'.
Proof.
  intros Hs. unfold assign_geographic_access.
  destruct (rmap_ok (fun h => let? t := py_num (get_d h "travel_time_min" (VInt 0)) in
                              Ok (<["geographic_access" := VStr (access_category t)]> h))
                    hs) as (hs' & E & _); [|exists hs'; exact E].
  intros h Hin. destruct (Forall_In _ _ _ Hs Hin) as [z Hz].
  unfold get_d. rewrite Hz. cbn. eexists; reflexivity.
Qed.

(** The enrichment loop of [main]: when no record raises, the records are
    the [enrich_hospital] of the rows. *)
Lemma rmap_enrich_ok (rows hs : list pydict) :
  rmap enrich_hospital_checked rows = Ok hs -> hs = map enrich_hospital rows.
Proof.
  revert hs. induction rows as [|r rows IH]; intros hs E; cbn [rmap] in E.
  - injection E as <-. reflexivity.
  - unfold enrich_hospital_checked at 1 in E.
    destruct (enrich_error r); cbn [rbind] in E; [discriminate|].
    destruct (rmap enrich_hospital_checked rows) as [hs'|] eqn:Er;
      cbn [rbind] in E; [|discriminate].
    injection E as <-. cbn [map]. f_equal. by apply IH.
Qed.

Lemma rmap_enrich_no_error (rows : list pydict) :
  Forall (fun r => enrich_error r = None) rows ->
  rmap enrich_hospital_checked rows = Ok (map enrich_hospital rows).
Proof.
  induction 1 as [|r rows Hr _ IH]; [reflexivity|].
  cbn [rmap map]. unfold enrich_hospital_checked at 1. rewrite Hr. cbn [rbind].
  rewrite IH. reflexivity.
Qed.

(** When the pipeline completes, it has stored into each record, after
    [enrich_hospital], only keys of [later_keys]. *)
Lemma run_pipeline_frame (rows : list pydict) (cfg : config) (out : list pydict) :
  run_pipeline rows cfg = Ok out ->
  Forall2 (fun r h => only_sets later_keys (enrich_hospital r) h) rows out.
Proof.
  unfold run_pipeline. intros E.
  apply rbind_ok in E as (hs0 & E0 & E). apply rmap_enrich_ok in E0. subst hs0.
  apply rbind_ok in E as (hs1 & E1 & E). apply rbind_ok in E as (hs2 & E2 & E).
  apply rbind_ok in E as (hs3 & E3 & E4).
  apply calculate_infrastructure_scores_sets in E1.
  apply assign_clinical_tiers_sets in E2.
  apply calculate_travel_sets in E3.
  apply assign_geographic_access_sets in E4.
  apply (Forall2_map_l enrich_hospital (only_sets later_keys)).
  eapply Forall2_only_sets_trans.
  { eapply Forall2_only_sets_mono; [|exact E1]. intros k Hk; cbn in *; tauto. }
  eapply Forall2_only_sets_trans.
  { eapply Forall2_only_sets_mono; [|exact E2].
    unfold tier_keys_stored. intros k Hk; cbn in *; tauto. }
  eapply Forall2_only_sets_trans.
  { eapply Forall2_only_sets_mono with (ks := travel_keys_stored).
    - unfold travel_keys_stored. intros k Hk; cbn in *; tauto.
    - eapply Forall2_impl; [exact E3|]. intros h h' [H _]. exact H. }
  eapply Forall2_only_sets_mono; [|exact E4]. intros k Hk; cbn in *; tauto.
Qed.

Lemma float_field_only_sets (ks : list string) (h h' : pydict) (k : string) :
  only_sets ks h h' -> ~ In k ks -> float_field h' k = float_field h k.
Proof. intros Hs Hk. unfold float_field, subscript. by rewrite (Hs k Hk). Qed.

Lemma coords_finite_only_sets (ks : list string) (h h' : pydict) :
  only_sets ks h h' -> ~ In "lat" ks -> ~ In "lng" ks ->
  coords_finite h -> coords_finite h'.
Proof.
  intros Hs Hla Hlo (x & y & Hx & Hy). exists x, y.
  rewrite !(float_field_only_sets ks h h') by done. done.
Qed.

Lemma enrich_coords_finite (h : pydict) (x y : R) :
  safe_float (get h "Latitude") 0 = FFin x ->
  safe_float (get h "Longitude") 0 = FFin y ->
  coords_finite (enrich_hospital h).
Proof.
  intros Hx Hy. exists x, y. unfold float_field, subscript.
  rewrite enrich_lat, enrich_lng, Hx, Hy. split; reflexivity.
Qed.

(** The pipeline completes on rows whose [safe_int] cells do not raise and
    whose coordinate cells are finite. *)
Lemma run_pipeline_ok (rows : list pydict) (cfg : config) :
  Forall (fun r => enrich_error r = None /\
                   (exists x, safe_float (get r "Latitude") 0 = FFin x) /\
                   (exists y, safe_float (get r "Longitude") 0 = FFin y)) rows ->
  exists out, run_pipeline rows cfg = Ok out.
Proof.
  intros Hr. unfold run_pipeline.
  rewrite rmap_enrich_no_error
    by (eapply Forall_impl; [exact Hr|]; intros r [H _]; exact H).
  cbn [rbind]. set (hs0 := map enrich_hospital rows).
  assert (H0 : Forall (fun h => scorable h /\ coords_finite h) hs0).
  { subst hs0. induction Hr as [|r rows (_ & [x Hx] & [y Hy]) _ IH]; constructor; [|done].
    split; [apply enrich_scorable | exact (enrich_coords_finite r x y Hx Hy)]. }
  destruct (calculate_infrastructure_scores_ok hs0) as (hs1 & E1 & R1).
  { eapply Forall_impl; [exact H0|]. intros h [H _]; exact H. }
  assert (R1' : Forall2 (only_sets ["infrastructure_score"]) hs0 hs1)
    by (apply calculate_infrastructure_scores_sets; exact E1).
  assert (P1 : Forall (fun h => num_ok h "infrastructure_score" /\
                               num_ok h "strokes_yr" /\ coords_finite h) hs1).
  { eapply Forall2_transfer; [|exact H0|exact R1].
    intros h h' ((_ & _ & Hs) & Hc) [z ->].
    split; [exists (IZR z); unfold num_field, subscript;
            by rewrite lookup_insert_eq|].
    split.
    - eapply num_ok_only_sets; [apply (only_sets_insert ["infrastructure_score"]); cbn; auto
                               | cbn; intros [E|E]; [discriminate E | exact E] | done].
    - eapply coords_finite_only_sets; [apply (only_sets_insert ["infrastructure_score"]); cbn; auto
                                      | cbn; intros [E|E]; [discriminate E | exact E]
                                      | cbn; intros [E|E]; [discriminate E | exact E]
                                      | exact Hc]. }
  destruct (assign_clinical_tiers_ok hs1) as (hs2 & E2 & R2).
  { eapply Forall_impl; [exact P1|]. intros h (? & ? & _). done. }
  assert (P2 : Forall coords_finite hs2).
  { eapply Forall2_transfer; [|exact P1|exact R2].
    intros h h' (_ & _ & Hc) Hs.
    eapply coords_finite_only_sets; [exact Hs | | | exact Hc];
      cbn; intros [E|[E|E]]; discriminate E || exact E. }
  destruct (calculate_travel_ok hs2 cfg P2) as (hs3 & E3).
  destruct (assign_geographic_access_ok hs3) as (hs4 & E4).
  { pose proof (calculate_travel_sets _ _ _ E3) as R3.
    eapply Forall2_transfer; [|apply Forall_true; intros; exact I|exact R3].
    intros h h' _ [_ Hz]. exact Hz. }
  exists hs4.
  rewrite E1. cbn [rbind]. rewrite E2. cbn [rbind]. rewrite E3. cbn [rbind].
  exact E4.
Qed.

(** ** C9: raw fields through the pipeline *)

(** C9 (as the code computes it): when the pipeline (enrichment, scoring,
    tiering, travel, access) completes without raising, in every output
    record each raw field whose column name is not one of the keys the
    pipeline stores ([derived_keys]) keeps its original value (or stays
    absent); the stages write into the row's own dict, so a raw column
    named like a stored key ("name", "cert", ...) is overwritten. *)
Theorem raw_fields_outside_derived_keys_kept (rows : list pydict) (cfg : config)
  (out : list pydict) (E : run_pipeline rows cfg = Ok out) :
  Forall2 (fun r h => forall k, ~ In k derived_keys -> h !! k = r !! k) rows out.
Proof.
  eapply Forall2_impl; [exact (run_pipeline_frame rows cfg out E)|].
  intros r h Hr k Hk.
  unfold derived_keys in Hk. rewrite in_app_iff in Hk.
  rewrite Hr by (unfold later_keys; tauto).
  apply enrich_frame. tauto.
Qed.


(* ------------------------------------------------------------------ *)
(** ** Concrete record sets *)

(** Two spreadsheet rows with only a "Strokes Per Year" cell, 10 and -100:
    the second one's volume part is [min(10, round(-100 / 10 * 10))]
    = -100, so its score is 5 - 100 = -95. *)
Lemma negative_strokes_scores :
  let rA : pydict := <["Strokes Per Year" := VInt 10]> ∅ in
  let rB : pydict := <["Strokes Per Year" := VInt (-100)]> ∅ in
  calculate_infrastructure_scores [enrich_hospital rA; enrich_hospital rB] =
  Ok [<["infrastructure_score" := VInt 15]> (enrich_hospital rA);
      <["infrastructure_score" := VInt (-95)]> (enrich_hospital rB)].
Proof.
  intros rA rB.
  assert (Hs : forall r z, get r "Strokes Per Year" = VInt z ->
                 num_field (enrich_hospital r) "strokes_yr" = Ok (IZR z)).
  { intros r z Hz. rewrite (num_field_lookup _ _ _ (enrich_strokes_yr r)), Hz.
    by rewrite safe_int_VInt. }
  assert (HsA : num_field (enrich_hospital rA) "strokes_yr" = Ok (IZR 10))
    by (apply Hs; reflexivity).
  assert (HsB : num_field (enrich_hospital rB) "strokes_yr" = Ok (IZR (-100)))
    by (apply Hs; reflexivity).
  unfold calculate_infrastructure_scores. cbn [rmap].
  rewrite HsA, HsB. cbn [rbind].
  assert (Hm : max_or_one [IZR 10; IZR (-100)] = IZR 10).
  { unfold max_or_one. cbn [fold_left].
    rewrite Rmax_left by (apply IZR_le; lia).
    assert (reqb (IZR 10) 0 = false) as -> by (apply reqb_false; discrR).
    reflexivity. }
  rewrite Hm.
  assert (Hscore : forall r z,
            r !! "Stroke Certification" = None ->
            Forall (fun '(col, _) => get r col = VNone) bool_flag_columns ->
            num_field (enrich_hospital r) "strokes_yr" = Ok (IZR z) ->
            infrastructure_score (enrich_hospital r) (IZR 10) =
            Ok (5 + Z.min 10 z)%Z).
  { intros r z Hc Hn Hz.
    pose proof (enrich_flags r) as Hf.
    assert (Hce : enrich_hospital r !! "cert" = Some (VStr "None")).
    { rewrite enrich_cert. unfold get_d. rewrite Hc. reflexivity. }
    unfold bool_flag_columns in Hf, Hn.
    repeat match type of Hf with
           | Forall _ (_ :: _) => let H := fresh "Hf" in
                                  apply Forall_cons in Hf as [H Hf]
           end.
    repeat match type of Hn with
           | Forall _ (_ :: _) => let H := fresh "Hn" in
                                  apply Forall_cons in Hn as [H Hn]
           end.
    unfold infrastructure_score, flag_points, volume_points.
    rewrite Hz. unfold subscript. rewrite Hce.
    repeat match goal with
           | H : enrich_hospital r !! _ = Some _ |- _ => rewrite H; clear H
           end.
    repeat match goal with
           | H : get r _ = VNone |- _ => rewrite H; clear H
           end.
    unfold py_div.
    assert (reqb (IZR 10) 0 = false) as -> by (apply reqb_false; discrR).
    cbn [rbind].
    replace (IZR z / IZR 10 * IZR W_stroke_volume_max)%R with (IZR z)
      by (unfold W_stroke_volume_max; field; discrR).
    rewrite py_round_IZR. f_equal.
    all: unfold cert_points, W_stroke_volume_max; simpl; lia. }
  rewrite (Hscore rA 10%Z), (Hscore rB (-100)%Z);
    [| reflexivity | repeat constructor | exact HsB
     | reflexivity | repeat constructor | exact HsA].
  reflexivity.
Qed.

Lemma insert_desc_nil (x : nat * (R * R)) : insert_desc x [] = [x].
Proof. reflexivity. Qed.

Lemma insert_desc_cons_false (x y : nat * (R * R)) (l : list (nat * (R * R))) :
  key_lt y.2 x.2 = false -> insert_desc x (y :: l) = y :: insert_desc x l.
Proof. intros H. cbn. by rewrite H. Qed.

Lemma key_lt_IZR_false (a b : Z) :
  (b < a)%Z -> key_lt (IZR a, IZR 0) (IZR b, IZR 0) = false.
Proof.
  intros H. unfold key_lt. cbn.
  assert (reqb (IZR a) (IZR b) = false) as -> by (apply reqb_false, eq_IZR_contrapositive; lia).
  apply rltb_false. apply IZR_le. lia.
Qed.

(** Four records with scores 40, 30, 20, 10: [t1 = max(1, 4 // 3) = 1],
    [t2 = max(2, 8 // 3) = 2], so the tiers are 1, 2, 3, 3. *)
Lemma four_records_tiers :
  let rec_of (s : Z) : pydict :=
    <["strokes_yr" := VInt 0]> (<["infrastructure_score" := VInt s]> ∅) in
  assign_clinical_tiers [rec_of 40%Z; rec_of 30%Z; rec_of 20%Z; rec_of 10%Z] =
  Ok [set_tier 1 (rec_of 40%Z); set_tier 2 (rec_of 30%Z);
      set_tier 3 (rec_of 20%Z); set_tier 3 (rec_of 10%Z)].
Proof.
  intros rec_of. unfold assign_clinical_tiers.
  assert (Hk : rmap tier_key [rec_of 40%Z; rec_of 30%Z; rec_of 20%Z; rec_of 10%Z] =
               Ok [(IZR 40, IZR 0); (IZR 30, IZR 0); (IZR 20, IZR 0);
                   (IZR 10, IZR 0)]) by reflexivity.
  rewrite Hk. cbn [rbind].
  unfold sort_desc. cbn [length seq combine fold_left].
  repeat (rewrite insert_desc_nil || rewrite insert_desc_cons_false
            by (cbn [snd]; apply key_lt_IZR_false; lia)).
  reflexivity.
Qed.

(* ------------------------------------------------------------------ *)
(** ** Where the pipeline raises *)

(** [safe_int] only lets [OverflowError] through. *)
Lemma safe_int_res_err (v : pyval) (d : Z) (e : pyexc) :
  safe_int_res v d = Err e -> e = OverflowError.
Proof.
  unfold safe_int_res. destruct v; [discriminate|..];
    destruct (py_float _) as [[x|n|]|]; cbn; congruence.
Qed.

Lemma first_error_In {A} (rs : list (result A)) (e : pyexc) :
  first_error rs = Some e -> In (Err e) rs.
Proof.
  induction rs as [|[a|e'] rs IH]; cbn; [discriminate| |].
  - intros H. right. exact (IH H).
  - intros [= ->]. left. reflexivity.
Qed.

Lemma first_error_not_None {A} (rs : list (result A)) (e : pyexc) :
  In (Err e) rs -> first_error rs <> None.
Proof.
  induction rs as [|[a|e'] rs IH]; cbn; [tauto| |discriminate].
  intros [H|H]; [discriminate H | exact (IH H)].
Qed.

Lemma enrich_error_overflow (h : pydict) (e : pyexc) :
  enrich_error h = Some e -> e = OverflowError.
Proof.
  unfold enrich_error. intros H. apply first_error_In, in_map_iff in H.
  destruct H as (col & Hc & _). exact (safe_int_res_err _ _ _ Hc).
Qed.

(** A "Strokes Per Year" cell whose [float] is an infinity (the text
    "inf", say): [int(float(..))] raises [OverflowError] in
    [enrich_hospital], and the pipeline raises it. *)
Lemma run_pipeline_inf_strokes (r : pydict) (rows : list pydict) (cfg : config)
  (s : string) (neg : bool) :
  get r "Strokes Per Year" = VStr s -> float_of_str s = Some (FInf neg) ->
  run_pipeline (r :: rows) cfg = Err OverflowError.
Proof.
  intros Hg Hf. unfold run_pipeline. cbn [rmap]. unfold enrich_hospital_checked at 1.
  destruct (enrich_error r) as [e|] eqn:Ee.
  - apply enrich_error_overflow in Ee. subst e. reflexivity.
  - exfalso. revert Ee. apply (first_error_not_None _ OverflowError).
    apply in_map_iff. exists "Strokes Per Year". split; [|cbn; tauto].
    rewrite Hg. unfold safe_int_res. cbn [py_float]. rewrite Hf. reflexivity.
Qed.

(** With a nan latitude every distance is nan, [min_dist] stays
    [float('inf')] and [round] of it raises [OverflowError]. *)
Lemma nearest_py_nan (y : R) (team : list team_member) (c : string) :
  nearest_py FNaN (FFin y) team c = Ok (None, c).
Proof.
  unfold nearest_py. induction team as [|tl team IH]; [reflexivity|].
  cbn [fold_left]. exact IH.
Qed.

Lemma travel_one_nan_lat (team : list team_member) (h : pydict) (y : R) :
  h !! "lat" = Some VNaN -> float_field h "lng" = Ok (FFin y) ->
  travel_one team h = Err OverflowError.
Proof.
  intros Hl Hg. unfold travel_one.
  assert (float_field h "lat" = Ok FNaN) as ->
    by (unfold float_field, subscript; rewrite Hl; reflexivity).
  cbn [rbind]. rewrite Hg. cbn [rbind]. rewrite nearest_py_nan. reflexivity.
Qed.

(** A "Latitude" cell whose [float] is nan (the text "nan", say): the
    enrichment and the first stages complete, and [calculate_travel]
    raises [OverflowError]. *)
Lemma run_pipeline_nan_lat (r : pydict) (cfg : config) (s : string) (y : R) :
  enrich_error r = None -> get r "Latitude" = VStr s -> float_of_str s = Some FNaN ->
  safe_float (get r "Longitude") 0 = FFin y ->
  run_pipeline [r] cfg = Err OverflowError.
Proof.
  intros He Hl Hf Hy. unfold run_pipeline.
  rewrite rmap_enrich_no_error by (constructor; [exact He | constructor]).
  cbn [rbind map]. set (h0 := enrich_hospital r).
  assert (L0 : h0 !! "lat" = Some VNaN).
  { subst h0. rewrite enrich_lat, Hl. unfold safe_float. cbn [py_float].
    rewrite Hf. reflexivity. }
  assert (G0 : float_field h0 "lng" = Ok (FFin y)).
  { subst h0. unfold float_field, subscript. rewrite enrich_lng, Hy. reflexivity. }
  destruct (calculate_infrastructure_scores_ok [h0]) as (hs1 & E1 & R1).
  { constructor; [apply enrich_scorable | constructor]. }
  rewrite E1. cbn [rbind].
  inversion R1 as [|? h1 ? ? [z Hz] Hn1]; subst. inversion Hn1; subst.
  destruct (assign_clinical_tiers_ok [<["infrastructure_score" := VInt z]> h0])
    as (hs2 & E2 & R2).
  { constructor; [|constructor]. split.
    - exists (IZR z). unfold num_field, subscript. by rewrite lookup_insert_eq.
    - destruct (enrich_scorable r) as (_ & _ & Hs).
      eapply num_ok_only_sets; [apply (only_sets_insert ["infrastructure_score"]); cbn; auto
                               | cbn; intros [E|E]; [discriminate E | exact E] | exact Hs]. }
  rewrite E2. cbn [rbind].
  apply Forall2_cons_inv_l in R2 as (h2 & hs2' & S2 & Hn2 & ->).
  apply Forall2_nil_inv_l in Hn2 as ->.
  assert (L2 : h2 !! "lat" = Some VNaN).
  { rewrite S2 by (cbn; intros [E|[E|E]]; discriminate E || exact E).
    by rewrite lookup_insert_ne. }
  assert (G2 : float_field h2 "lng" = Ok (FFin y)).
  { erewrite float_field_only_sets;
      [| exact S2 | cbn; intros [E|[E|E]]; discriminate E || exact E].
    erewrite float_field_only_sets;
      [exact G0 | apply (only_sets_insert ["infrastructure_score"]); cbn; auto
      | cbn; intros [E|E]; [discriminate E | exact E]]. }
  unfold calculate_travel. cbn [rmap].
  rewrite (travel_one_nan_lat _ h2 y L2 G2). reflexivity.
Qed.

(** The sort of the four keys above leaves them in place. *)
Lemma four_records_order :
  sort_desc [(IZR 40, IZR 0); (IZR 30, IZR 0); (IZR 20, IZR 0); (IZR 10, IZR 0)] =
  [0; 1; 2; 3]%nat.
Proof.
  unfold sort_desc. cbn [length seq combine fold_left].
  repeat (rewrite insert_desc_nil || rewrite insert_desc_cons_false
            by (cbn [snd]; apply key_lt_IZR_false; lia)).
  reflexivity.
Qed.

End Pipeline.

(* ================================================================== *)
(** * Instances on concrete records

    The float conversions below ([str] of a float, [float] of a str) are
    never reached by these records. *)

(** A record set on which the scorer succeeds: the two rows of
    [negative_strokes_scores]; every stored score is at most 100. *)
Lemma infrastructure_score_clamped_witness :
  let rA : pydict := <["Strokes Per Year" := VInt 10]> ∅ in
  let rB : pydict := <["Strokes Per Year" := VInt (-100)]> ∅ in
  let hs := [enrich_hospital (fun _ => "") (fun _ => None) rA;
             enrich_hospital (fun _ => "") (fun _ => None) rB] in
  exists hs', calculate_infrastructure_scores hs = Ok hs' /\
    Forall2 (fun h h' => exists z,
               h' = <["infrastructure_score" := VInt z]> h /\ (z <= 100)%Z) hs hs'.
Proof.
  intros rA rB hs. eexists. split.
  - apply (negative_strokes_scores (fun _ => "") (fun _ => None)).
  - apply (proj1 (infrastructure_score_clamped hs _
                    (negative_strokes_scores (fun _ => "") (fun _ => None)))).
Defined.

(** A negative "Strokes Per Year" cell gives a negative score. *)
Lemma infrastructure_score_negative_counterexample :
  let rA : pydict := <["Strokes Per Year" := VInt 10]> ∅ in
  let rB : pydict := <["Strokes Per Year" := VInt (-100)]> ∅ in
  exists hs' hB,
    calculate_infrastructure_scores
      [enrich_hospital (fun _ => "") (fun _ => None) rA;
       enrich_hospital (fun _ => "") (fun _ => None) rB] = Ok hs' /\
    hs' !! 1%nat = Some hB /\
    hB !! "infrastructure_score" = Some (VInt (-95)) /\ (-95 < 0)%Z.
Proof.
  intros rA rB. do 2 eexists. split.
  - apply (negative_strokes_scores (fun _ => "") (fun _ => None)).
  - split; [reflexivity|]. split; [apply lookup_insert_eq | lia].
Defined.

(** Four records with scores 40, 30, 20, 10: the sort keeps them in
    place, consecutive records are in non-increasing key order, and with
    [n = 4] ([t1 = 1], [t2 = 2]) they get tiers 1, 2, 3 and 3. *)
Lemma tiers_by_floor_thirds_witness :
  let rec_of (s : Z) : pydict :=
    <["strokes_yr" := VInt 0]> (<["infrastructure_score" := VInt s]> ∅) in
  let hs := [rec_of 40%Z; rec_of 30%Z; rec_of 20%Z; rec_of 10%Z] in
  rmap tier_key hs =
    Ok [(IZR 40, IZR 0); (IZR 30, IZR 0); (IZR 20, IZR 0); (IZR 10, IZR 0)] /\
  sort_desc [(IZR 40, IZR 0); (IZR 30, IZR 0); (IZR 20, IZR 0); (IZR 10, IZR 0)] =
    [0; 1; 2; 3]%nat /\
  key_lt (IZR 30, IZR 0) (IZR 20, IZR 0) = false /\
  exists hs', assign_clinical_tiers hs = Ok hs' /\
    hs' !! 0%nat = Some (set_tier 1 (rec_of 40%Z)) /\
    hs' !! 1%nat = Some (set_tier 2 (rec_of 30%Z)) /\
    hs' !! 2%nat = Some (set_tier 3 (rec_of 20%Z)) /\
    hs' !! 3%nat = Some (set_tier 3 (rec_of 10%Z)).
Proof.
  intros rec_of hs.
  assert (Hk : rmap tier_key hs =
    Ok [(IZR 40, IZR 0); (IZR 30, IZR 0); (IZR 20, IZR 0); (IZR 10, IZR 0)])
    by reflexivity.
  pose proof four_records_order as Ho.
  destruct (tiers_by_floor_thirds hs _ Hk)
    as (_ & Hsort & hs' & E & _ & _ & Ht).
  cbv zeta in Hsort, Ht. rewrite Ho in Hsort, Ht.
  split; [exact Hk|]. split; [exact Ho|]. split.
  { apply (Hsort 1%nat 1%nat 2%nat (rec_of 30%Z) (rec_of 20%Z));
      reflexivity. }
  exists hs'. split; [exact E|].
  destruct (Ht 0%nat 0%nat (rec_of 40%Z) eq_refl eq_refl) as (t0 & E0 & T0 & _ & _).
  destruct (Ht 1%nat 1%nat (rec_of 30%Z) eq_refl eq_refl) as (t1 & E1 & _ & T1 & _).
  destruct (Ht 2%nat 2%nat (rec_of 20%Z) eq_refl eq_refl) as (t2 & E2 & _ & _ & T2).
  destruct (Ht 3%nat 3%nat (rec_of 10%Z) eq_refl eq_refl) as (t3 & E3 & _ & _ & T3).
  rewrite E0, E1, E2, E3.
  rewrite T0, T1, T2, T3 by (cbn; lia). repeat split.
Defined.

(** Four records with scores 40, 30, 20, 10: the one at sorted position 1
    (score 30) gets tier 2, although position 1 is below
    [max(ceil(4 / 3), 1) = 2]. *)
Lemma tiers_ceiling_counterexample :
  let rec_of (s : Z) : pydict :=
    <["strokes_yr" := VInt 0]> (<["infrastructure_score" := VInt s]> ∅) in
  assign_clinical_tiers [rec_of 40%Z; rec_of 30%Z; rec_of 20%Z; rec_of 10%Z] =
  Ok [set_tier 1 (rec_of 40%Z); set_tier 2 (rec_of 30%Z);
      set_tier 3 (rec_of 20%Z); set_tier 3 (rec_of 10%Z)] /\
  (1 < Nat.max ((4 + 2) / 3) 1)%nat.
Proof.
  split; [apply four_records_tiers | cbn; lia].
Defined.

Lemma two_records_tiers_witness :
  let A : pydict :=
    <["strokes_yr" := VInt 0]> (<["infrastructure_score" := VInt 90]> ∅) in
  let B : pydict :=
    <["strokes_yr" := VInt 0]> (<["infrastructure_score" := VInt 10]> ∅) in
  exists A' B',
    assign_clinical_tiers [A; B] = Ok [A'; B'] /\
    assign_clinical_tiers [B; A] = Ok [B'; A'] /\
    A' !! "clinical_tier" = Some (VInt 1) /\
    B' !! "clinical_tier" = Some (VInt 2).
Proof.
  intros A B.
  destruct (two_records_tiers A B (IZR 0) (IZR 0)
              eq_refl eq_refl eq_refl eq_refl)
    as (A' & B' & E & E' & H1 & _ & H2 & _).
  exists A', B'. split; [exact E|]. split; [exact E'|]. split; [exact H1 | exact H2].
Defined.

(** Scores 90 and 10: the second record gets tier 2, not 3. *)
Lemma two_records_tier3_counterexample :
  let A : pydict :=
    <["strokes_yr" := VInt 0]> (<["infrastructure_score" := VInt 90]> ∅) in
  let B : pydict :=
    <["strokes_yr" := VInt 0]> (<["infrastructure_score" := VInt 10]> ∅) in
  assign_clinical_tiers [A; B] = Ok [set_tier 1 A; set_tier 2 B] /\
  set_tier 2 B !! "clinical_tier" = Some (VInt 2) /\
  set_tier 2 B !! "clinical_tier" <> Some (VInt 3).
Proof.
  intros A B. split.
  - apply (assign_two_records A B (IZR 90) (IZR 0) (IZR 10) (IZR 0));
      [reflexivity | reflexivity | apply IZR_lt; lia].
  - split; [reflexivity | discriminate].
Defined.

Lemma scenario_680000_epidemiology_witness :
  let h : pydict :=
    <["Population 65+" := VInt 108800]> (<["Catchment Population" := VInt 680000]> ∅) in
  enrich_hospital (fun _ => "") (fun _ => None) h !! "ischemic_volume" =
  Some (VInt 1821).
Proof.
  intros h.
  exact (proj2 (proj2 (scenario_680000_epidemiology (fun _ => "") (fun _ => None)
                          h eq_refl eq_refl))).
Defined.

Lemma cert_normalised_witness :
  let nbsp := String (ascii_of_nat 194) (String (ascii_of_nat 160) EmptyString) in
  let h : pydict := <["Stroke Certification" := VStr "Foo"]> ∅ in
  let h' : pydict := <["Stroke Certification" := VStr ("CSC" ++ nbsp)]> ∅ in
  get h "Stroke Certification" = VStr "Foo" /\
  enrich_hospital (fun _ => "") (fun _ => None) h !! "cert" = Some (VStr "None") /\
  get h' "Stroke Certification" = VStr ("CSC" ++ nbsp) /\
  enrich_hospital (fun _ => "") (fun _ => None) h' !! "cert" = Some (VStr "CSC").
Proof.
  intros nbsp h h'. split; [reflexivity|]. split.
  - exact (proj1 (proj1 (proj2 (cert_normalised (fun _ => "") (fun _ => None) h))
                    eq_refl)).
  - split; [reflexivity|].
    exact (proj2 (proj2 (cert_normalised (fun _ => "") (fun _ => None) h')) eq_refl).
Defined.

Lemma scorer_never_divides_by_zero_witness :
  fold_left Rmax [] 0%R = 0%R /\ max_or_one [0%R] = 1%R.
Proof.
  split; [reflexivity|].
  exact (proj1 (proj2 (proj2 scorer_never_divides_by_zero)) 0%R [] eq_refl).
Defined.


Lemma volumes_monotone_in_population_witness :
  let h : pydict :=
    <["Population 65+" := VInt 17000]> (<["Catchment Population" := VInt 100000]> ∅) in
  let h' : pydict :=
    <["Population 65+" := VInt 34000]> (<["Catchment Population" := VInt 200000]> ∅) in
  exists i j i' j',
    enrich_hospital (fun _ => "") (fun _ => None) h !! "ischemic_volume" = Some (VInt i) /\
    enrich_hospital (fun _ => "") (fun _ => None) h !! "hemorrhagic_volume" = Some (VInt j) /\
    enrich_hospital (fun _ => "") (fun _ => None) h' !! "ischemic_volume" = Some (VInt i') /\
    enrich_hospital (fun _ => "") (fun _ => None) h' !! "hemorrhagic_volume" = Some (VInt j') /\
    (i <= i')%Z /\ (j <= j')%Z.
Proof.
  intros h h'.
  assert (E1 : get h "Catchment Population" = VInt 100000) by reflexivity.
  assert (E2 : get h' "Catchment Population" = VInt 200000) by reflexivity.
  assert (E3 : get h "Population 65+" = VInt 17000) by reflexivity.
  assert (E4 : get h' "Population 65+" = VInt 34000) by reflexivity.
  apply (volumes_monotone_in_population (fun _ => "") (fun _ => None) h h');
    rewrite ?E1, ?E2, ?E3, ?E4, ?safe_int_VInt; lia.
Defined.

(** A row with a raw column outside the stored keys: the pipeline
    completes on it, and the column is in the output record unchanged. *)
Lemma raw_fields_outside_derived_keys_kept_witness :
  let r : pydict := <["Notes" := VStr "n"]> (<["Hospital Name" := VStr "Y"]> ∅) in
  let cfg := {| rep_base_lat := 0; rep_base_lng := 0; rep_name := "Rep";
                team_members := [] |} in
  exists out,
    run_pipeline (fun _ => "") (fun _ => None) [r] cfg = Ok out /\
    Forall2 (fun r h => forall k, ~ In k derived_keys -> h !! k = r !! k) [r] out.
Proof.
  intros r cfg.
  destruct (run_pipeline_ok (fun _ => "") (fun _ => None) [r] cfg) as (out & E).
  { constructor; [|constructor].
    split; [reflexivity|]. split; eexists; reflexivity. }
  exists out. split; [exact E|].
  exact (raw_fields_outside_derived_keys_kept (fun _ => "") (fun _ => None)
           [r] cfg out E).
Defined.

(** A raw column named "name" is overwritten by [str] of "Hospital Name". *)
Lemma raw_name_overwritten_counterexample :
  let r : pydict := <["Hospital Name" := VStr "Y"]> (<["name" := VStr "X"]> ∅) in
  let cfg := {| rep_base_lat := 0; rep_base_lng := 0; rep_name := "Rep";
                team_members := [] |} in
  exists h,
    run_pipeline (fun _ => "") (fun _ => None) [r] cfg = Ok [h] /\
    r !! "name" = Some (VStr "X") /\ h !! "name" = Some (VStr "Y").
Proof.
  intros r cfg.
  destruct (run_pipeline_ok (fun _ => "") (fun _ => None) [r] cfg) as (out & E).
  { constructor; [|constructor].
    split; [reflexivity|]. split; eexists; reflexivity. }
  pose proof (run_pipeline_frame (fun _ => "") (fun _ => None) [r] cfg out E) as HF.
  inversion HF as [|r0 h ? out' Hrh Hnil]; subst.
  inversion Hnil; subst.
  exists h. split; [exact E|]. split; [reflexivity|].
  rewrite Hrh by (unfold later_keys; cbn; intuition discriminate).
  rewrite enrich_name. reflexivity.
Defined.

Lemma absent_flags_default_witness :
  get ∅ "Road Access" = VNone /\
  enrich_hospital (fun _ => "") (fun _ => None) ∅ !! "road_access" = Some (VBool true).
Proof.
  split; [reflexivity|].
  exact (proj1 (absent_flags_default (fun _ => "") (fun _ => None) ∅) eq_refl).
Defined.
